(** * simple-mock-server: the dispatcher, the response bodies and the call registry

    A shallow embedding of [src/server.py].  Python [str] values are lists of
    Unicode code points, [bytes] values are lists of bytes, a [dict] with a
    fixed set of keys is an association list in insertion order, and the five
    per-method response tables are finite maps.  Code that can raise returns a
    [result]; the process-wide [REGISTRY] is threaded through the handler as
    explicit state. *)

From Stdlib Require Import ZArith NArith Strings.Byte String Ascii DecimalString.
From Stdlib Require Import Floats.SpecFloat.
From stdpp Require Import base option list gmap.

Local Open Scope N_scope.
Local Open Scope list_scope.

(** ** Python values *)

Module Py.

(** A [str] is a sequence of code points, a [bytes] a sequence of octets. *)
Definition str := list N.
Definition bytes := list byte.

(** An ASCII literal of the source, as a [str] and as a [bytes]. *)
Definition lit (s : string) : str := map Byte.to_N (list_byte_of_string s).
Definition blit (s : string) : bytes := list_byte_of_string s.

Definition byte_of_N (n : N) : byte :=
  match Byte.of_N n with Some b => b | None => x00 end.

(** The exception classes the modelled code can meet. *)
Inductive exn : Type :=
| UnicodeDecodeError
| UnicodeEncodeError
| ValueError
| TypeError
| AttributeError
| KeyError
| IndexError
| OverflowError.

Inductive result (A : Type) : Type :=
| Ok (a : A)
| Raise (e : exn).
Arguments Ok {A} a.
Arguments Raise {A} e.

Definition bind {A B} (r : result A) (k : A -> result B) : result B :=
  match r with
  | Ok a => k a
  | Raise e => Raise e
  end.

(** Truth value of the objects the constructor tests with [or] and [if]. *)
Definition truthy_str (s : str) : bool :=
  match s with [] => false | _ :: _ => true end.
Definition truthy_int (z : Z) : bool := negb (Z.eqb z 0).
Definition truthy_list {A} (l : list A) : bool :=
  match l with [] => false | _ :: _ => true end.

(** A JSON number as [json.loads] yields it: an [int] or a [float]. *)
Inductive number : Type :=
| PyInt (z : Z)
| PyFloat (f : spec_float).

Definition truthy_number (n : number) : bool :=
  match n with
  | PyInt z => truthy_int z
  | PyFloat (S754_zero _) => false
  | PyFloat _ => true
  end.

(** *** [str.startswith], [in] on strings, [str.replace] *)

Fixpoint startswith (s prefix : str) : bool :=
  match prefix, s with
  | [], _ => true
  | _ :: _, [] => false
  | p :: prefix', c :: s' => N.eqb p c && startswith s' prefix'
  end.

(** [sub in s]: [sub] occurs somewhere in [s]. *)
Fixpoint contains (sub s : str) : bool :=
  startswith s sub ||
  match s with
  | [] => false
  | _ :: s' => contains sub s'
  end.

(** [s.replace(old, new)] for a non-empty [old]: occurrences are found from
    left to right and do not overlap.  [skip] counts the characters of a
    match that are still to be dropped. *)
Fixpoint replace_from (old new : str) (skip : nat) (s : str) : str :=
  match s with
  | [] => []
  | c :: s' =>
      match skip with
      | S k => replace_from old new k s'
      | O =>
          if startswith s old
          then new ++ replace_from old new (length old - 1) s'
          else c :: replace_from old new 0 s'
      end
  end.

(** With an empty [old], Python puts [new] before every character and at the
    end. *)
Definition replace (s old new : str) : str :=
  match old with
  | [] => new ++ concat (map (fun c => c :: new) s)
  | _ :: _ => replace_from old new 0 s
  end.

(** *** UTF-8: [str.encode] and [bytes.decode] with the default strict errors *)

Definition utf8_encode_char (c : N) : option bytes :=
  if c <? 0x80 then Some [byte_of_N c]
  else if c <? 0x800 then
    Some [byte_of_N (N.lor 0xC0 (N.shiftr c 6));
          byte_of_N (N.lor 0x80 (N.land c 0x3F))]
  else if c <? 0x10000 then
    if (0xD800 <=? c) && (c <=? 0xDFFF) then None
    else
      Some [byte_of_N (N.lor 0xE0 (N.shiftr c 12));
            byte_of_N (N.lor 0x80 (N.land (N.shiftr c 6) 0x3F));
            byte_of_N (N.lor 0x80 (N.land c 0x3F))]
  else if c <? 0x110000 then
    Some [byte_of_N (N.lor 0xF0 (N.shiftr c 18));
          byte_of_N (N.lor 0x80 (N.land (N.shiftr c 12) 0x3F));
          byte_of_N (N.lor 0x80 (N.land (N.shiftr c 6) 0x3F));
          byte_of_N (N.lor 0x80 (N.land c 0x3F))]
  else None.

Fixpoint encode (s : str) : result bytes :=
  match s with
  | [] => Ok []
  | c :: s' =>
      match utf8_encode_char c with
      | None => Raise UnicodeEncodeError
      | Some bs => bind (encode s') (fun rest => Ok (bs ++ rest))
      end
  end.

Definition is_continuation (b : byte) : bool :=
  let n := Byte.to_N b in (0x80 <=? n) && (n <=? 0xBF).

Definition payload (b : byte) : N := N.land (Byte.to_N b) 0x3F.

Definition push {A} (c : A) (r : result (list A)) : result (list A) :=
  bind r (fun l => Ok (c :: l)).

(** Strict decoding: truncated and stray bytes, overlong forms, surrogates
    and values above U+10FFFF are errors. *)
Fixpoint decode (bs : bytes) : result str :=
  match bs with
  | [] => Ok []
  | b0 :: r0 =>
      let n0 := Byte.to_N b0 in
      if n0 <? 0x80 then push n0 (decode r0)
      else if (0xC0 <=? n0) && (n0 <=? 0xDF) then
        match r0 with
        | b1 :: r1 =>
            let c := N.lor (N.shiftl (N.land n0 0x1F) 6) (payload b1) in
            if is_continuation b1 && (0x80 <=? c)
            then push c (decode r1)
            else Raise UnicodeDecodeError
        | _ => Raise UnicodeDecodeError
        end
      else if (0xE0 <=? n0) && (n0 <=? 0xEF) then
        match r0 with
        | b1 :: b2 :: r2 =>
            let c := N.lor (N.shiftl (N.land n0 0x0F) 12)
                       (N.lor (N.shiftl (payload b1) 6) (payload b2)) in
            if is_continuation b1 && is_continuation b2 && (0x800 <=? c)
               && negb ((0xD800 <=? c) && (c <=? 0xDFFF))
            then push c (decode r2)
            else Raise UnicodeDecodeError
        | _ => Raise UnicodeDecodeError
        end
      else if (0xF0 <=? n0) && (n0 <=? 0xF7) then
        match r0 with
        | b1 :: b2 :: b3 :: r3 =>
            let c := N.lor (N.shiftl (N.land n0 0x07) 18)
                       (N.lor (N.shiftl (payload b1) 12)
                          (N.lor (N.shiftl (payload b2) 6) (payload b3))) in
            if is_continuation b1 && is_continuation b2 && is_continuation b3
               && (0x10000 <=? c) && (c <? 0x110000)
            then push c (decode r3)
            else Raise UnicodeDecodeError
        | _ => Raise UnicodeDecodeError
        end
      else Raise UnicodeDecodeError
  end.

(** *** [str(n)] for an [int] *)

Fixpoint digits (u : Decimal.uint) : str :=
  match u with
  | Decimal.Nil => []
  | Decimal.D0 u' => 0x30 :: digits u'
  | Decimal.D1 u' => 0x31 :: digits u'
  | Decimal.D2 u' => 0x32 :: digits u'
  | Decimal.D3 u' => 0x33 :: digits u'
  | Decimal.D4 u' => 0x34 :: digits u'
  | Decimal.D5 u' => 0x35 :: digits u'
  | Decimal.D6 u' => 0x36 :: digits u'
  | Decimal.D7 u' => 0x37 :: digits u'
  | Decimal.D8 u' => 0x38 :: digits u'
  | Decimal.D9 u' => 0x39 :: digits u'
  end.

Definition str_of_int (z : Z) : str :=
  match Z.to_int z with
  | Decimal.Pos u => digits u
  | Decimal.Neg u => 0x2D :: digits u
  end.

(** [sys.maxsize] of a 64-bit host. *)
Definition maxsize : Z := 9223372036854775807.

Definition len (s : str) : Z := Z.of_nat (length s).
Definition len_bytes (b : bytes) : Z := Z.of_nat (length b).

End Py.

Import Py.

(** ** [json.dumps] with its default settings *)

Module Json.

(** The Python objects the server serialises: [None], a [str], a [list], and
    a [dict] with [str] keys in insertion order. *)
#[warnings="-register-all"]
Inductive value : Type :=
| JNone
| JStr (s : str)
| JList (items : list value)
| JDict (members : list (str * value)).

Definition hex_digit (d : N) : N :=
  if d <? 10 then 0x30 + d else 0x57 + d.

(** ['{0:04x}'.format(n)] for [n < 0x10000]. *)
Definition hex4 (n : N) : str :=
  [hex_digit (N.land (N.shiftr n 12) 0xF);
   hex_digit (N.land (N.shiftr n 8) 0xF);
   hex_digit (N.land (N.shiftr n 4) 0xF);
   hex_digit (N.land n 0xF)].

Definition u_escape (n : N) : str := [0x5C; 0x75] ++ hex4 n.

(** A character between space and tilde other than the quote and the
    backslash is copied; the others are escaped ([ensure_ascii] is on). *)
Definition plain (c : N) : bool :=
  (0x20 <=? c) && (c <=? 0x7E) && negb (c =? 0x22) && negb (c =? 0x5C).

Definition escape_char (c : N) : str :=
  if c =? 0x5C then [0x5C; 0x5C]
  else if c =? 0x22 then [0x5C; 0x22]
  else if c =? 0x08 then [0x5C; 0x62]
  else if c =? 0x0C then [0x5C; 0x66]
  else if c =? 0x0A then [0x5C; 0x6E]
  else if c =? 0x0D then [0x5C; 0x72]
  else if c =? 0x09 then [0x5C; 0x74]
  else if (0x20 <=? c) && (c <=? 0x7E) then [c]
  else if c <? 0x10000 then u_escape c
  else
    let n := c - 0x10000 in
    u_escape (N.lor 0xD800 (N.land (N.shiftr n 10) 0x3FF))
    ++ u_escape (N.lor 0xDC00 (N.land n 0x3FF)).

Definition encode_basestring_ascii (s : str) : str :=
  [0x22] ++ concat (map escape_char s) ++ [0x22].

Fixpoint join (sep : str) (parts : list str) : str :=
  match parts with
  | [] => []
  | [p] => p
  | p :: parts' => p ++ sep ++ join sep parts'
  end.

Fixpoint dumps (v : value) : str :=
  match v with
  | JNone => lit "null"
  | JStr s => encode_basestring_ascii s
  | JList items =>
      lit "[" ++ join (lit ", ") (map dumps items) ++ lit "]"
  | JDict members =>
      lit "{"
      ++ join (lit ", ")
           (map (fun kv => encode_basestring_ascii (fst kv) ++ lit ": " ++ dumps (snd kv))
              members)
      ++ lit "}"
  end.

End Json.

Import Json.

(** ** The call registry *)

Module CallsRegistry.

(** [self.__registry]: a list of dicts. *)
Definition t := list value.

Definition init : t := [].

(** The dict literal appended by [add]. *)
Definition entry (method path : str) (body : option str) : value :=
  JDict [(lit "method", JStr method);
         (lit "path", JStr path);
         (lit "body", match body with Some s => JStr s | None => JNone end)].

Definition add (self : t) (method path : str) (body : option bytes) : result t :=
  bind (match body with
        | Some b => bind (decode b) (fun s => Ok (Some s))
        | None => Ok None
        end)
       (fun body' => Ok (self ++ [entry method path body'])).

Definition list (self : t) : list value := self.

Definition clear (self : t) : t := [].

End CallsRegistry.

(** ** Response bodies *)

(** What the host file system answers at one moment: the text
    [open(filename).read()] returns, and [os.stat(filename).st_size]; [None]
    where the call raises.  The two are not tied to each other, a file may
    vanish between the two calls. *)
Record FileSystem : Type := {
  read_text : str -> option str;
  st_size : str -> option Z
}.

(** The object a body's [load] hands back. *)
Inductive loaded : Type :=
| LoadedBytes (b : bytes)
| LoadedStr (s : str)
| LoadedNone.

(** The interface of the classes [body_wrapper_cls] returns. *)
Class BodyWrapper (B : Type) : Type := {
  wrap : option str -> B;
  body_load : FileSystem -> B -> result loaded;
  body_len : FileSystem -> B -> Z
}.

Module MockerResponseBody.

Record t : Type := { body : str }.

(** [self.body = body or ''] *)
Definition init (body : option str) : t :=
  {| body := match body with
             | Some s => if truthy_str s then s else []
             | None => []
             end |}.

Definition load (self : t) : result loaded :=
  bind (encode (body self)) (fun b => Ok (LoadedBytes b)).

Definition __len__ (self : t) : Z := len (body self).

End MockerResponseBody.

Module MockedResponseBody.

Record t : Type := {
  _file_definition : str;
  content : str;
  is_file : bool
}.

Definition init (content : option str) : t :=
  let _file_definition := lit "@file://" in
  let content := match content with
                 | Some s => if truthy_str s then s else []
                 | None => []
                 end in
  {| _file_definition := _file_definition;
     content := content;
     is_file := contains _file_definition content |}.

(** The name both [load] and [__len__] compute. *)
Definition filename (self : t) : str :=
  replace (content self) (_file_definition self) [].

(** [logger.error] writes to the log only; it does not change the value
    returned. *)
Definition load (fs : FileSystem) (self : t) : result loaded :=
  if is_file self then
    match read_text fs (filename self) with
    | Some text => Ok (LoadedStr text)
    | None => Ok LoadedNone
    end
  else bind (encode (content self)) (fun b => Ok (LoadedBytes b)).

Definition __len__ (fs : FileSystem) (self : t) : Z :=
  let length :=
    match st_size fs (filename self) with
    | Some size => size
    | None => len (lit "None")
    end in
  if is_file self then length else len (content self).

End MockedResponseBody.

#[export] Instance MockerResponseBody_wrapper : BodyWrapper MockerResponseBody.t := {
  wrap := MockerResponseBody.init;
  body_load := fun _ => MockerResponseBody.load;
  body_len := fun _ => MockerResponseBody.__len__
}.

#[export] Instance MockedResponseBody_wrapper : BodyWrapper MockedResponseBody.t := {
  wrap := MockedResponseBody.init;
  body_load := MockedResponseBody.load;
  body_len := MockedResponseBody.__len__
}.

(** ** Responses *)

(** A header of a response: a dict, of which [send] uses the first item. *)
Definition header := list (str * str).

Module Response.

Record t (B : Type) : Type := {
  method : str;
  path : str;
  response_code : Z;
  headers : list header;
  delay : number;
  body : B
}.
Arguments method {B} _.
Arguments path {B} _.
Arguments response_code {B} _.
Arguments headers {B} _.
Arguments delay {B} _.
Arguments body {B} _.

(** [Response.__init__]: every argument may be [None]; [x or d] and
    [x if x else d] take [d] whenever [x] is falsy. *)
Definition init {B} `{BodyWrapper B}
    (method path : option str) (response_code : option Z)
    (headers : option (list header)) (body : option str)
    (delay : option number) : t B :=
  {| method := match method with
               | Some m => if truthy_str m then m else lit "GET"
               | None => lit "GET"
               end;
     path := match path with
             | Some p => if truthy_str p then p else lit "/"
             | None => lit "/"
             end;
     response_code := match response_code with
                      | Some c => if truthy_int c then c else 200%Z
                      | None => 200%Z
                      end;
     headers := match headers with
                | Some h => if truthy_list h then h else []
                | None => []
                end;
     delay := match delay with
              | Some d => if truthy_number d then d else PyInt 0
              | None => PyInt 0
              end;
     body := wrap body |}.

End Response.

Definition MockerResponse := Response.t MockerResponseBody.t.
Definition MockedResponse := Response.t MockedResponseBody.t.

(** ** The response tables *)

Module Configuration.

(** One element of the [responses] list, read with [response.get(...)]:
    a key that is absent or [null] reads as [None]. *)
Record declaration : Type := {
  d_method : option str;
  d_path : option str;
  d_responseCode : option Z;
  d_headers : option (list header);
  d_body : option str;
  d_delay : option number
}.

(** The tables are keyed by [response.get("path")], which may be [None]. *)
Record t : Type := {
  hostname : str;
  port : Z;
  head_response_map : gmap (option str) MockedResponse;
  get_response_map : gmap (option str) MockedResponse;
  post_response_map : gmap (option str) MockedResponse;
  put_response_map : gmap (option str) MockedResponse;
  delete_response_map : gmap (option str) MockedResponse
}.

Section Build.

(** [str.upper] of the host. *)
Variable upper : str -> str.

(** The body of the loop of [_build_response_map]. *)
Definition add_response (self : t) (response : declaration) : result t :=
  let mocked_resp : MockedResponse :=
    Response.init (d_method response) (d_path response)
      (d_responseCode response) (d_headers response)
      (d_body response) (d_delay response) in
  match d_method response with
  | None => Raise AttributeError
  | Some m =>
      let key := upper m in
      let path := d_path response in
      if decide (key = lit "GET") then
        Ok {| hostname := hostname self; port := port self;
              head_response_map := head_response_map self;
              get_response_map := <[path := mocked_resp]> (get_response_map self);
              post_response_map := post_response_map self;
              put_response_map := put_response_map self;
              delete_response_map := delete_response_map self |}
      else if decide (key = lit "POST") then
        Ok {| hostname := hostname self; port := port self;
              head_response_map := head_response_map self;
              get_response_map := get_response_map self;
              post_response_map := <[path := mocked_resp]> (post_response_map self);
              put_response_map := put_response_map self;
              delete_response_map := delete_response_map self |}
      else if decide (key = lit "PUT") then
        Ok {| hostname := hostname self; port := port self;
              head_response_map := head_response_map self;
              get_response_map := get_response_map self;
              post_response_map := post_response_map self;
              put_response_map := <[path := mocked_resp]> (put_response_map self);
              delete_response_map := delete_response_map self |}
      else if decide (key = lit "DELETE") then
        Ok {| hostname := hostname self; port := port self;
              head_response_map := head_response_map self;
              get_response_map := get_response_map self;
              post_response_map := post_response_map self;
              put_response_map := put_response_map self;
              delete_response_map := <[path := mocked_resp]> (delete_response_map self) |}
      else if decide (key = lit "HEAD") then
        Ok {| hostname := hostname self; port := port self;
              head_response_map := <[path := mocked_resp]> (head_response_map self);
              get_response_map := get_response_map self;
              post_response_map := post_response_map self;
              put_response_map := put_response_map self;
              delete_response_map := delete_response_map self |}
      else Raise KeyError
  end.

Fixpoint _build_response_map (self : t) (responses : list declaration) : result t :=
  match responses with
  | [] => Ok self
  | response :: responses' =>
      bind (add_response self response)
           (fun self' => _build_response_map self' responses')
  end.

Definition init (hostname : str) (port : Z) (responses : list declaration) : result t :=
  _build_response_map
    {| hostname := hostname; port := port;
       head_response_map := ∅; get_response_map := ∅;
       post_response_map := ∅; put_response_map := ∅;
       delete_response_map := ∅ |}
    responses.

End Build.

End Configuration.

(** ** The request handler *)

(** What the transport has parsed of one request when it calls [do_*]: the
    command and path of the request line, the value of the [Content-Length]
    header ([None] when the header is absent), and the bytes still to be read
    from the connection. *)
Module Request.

Record t : Type := {
  command : str;
  path : str;
  content_length : option str;
  rfile : bytes
}.

(** [self.rfile.read(n)]: at most [n] bytes, and everything up to the end
    of the stream for [-1]; a length below [-1] is a [ValueError] and one
    above [sys.maxsize] an [OverflowError].  A host that cannot buffer a
    length within these bounds fails with a [MemoryError] of its own, which
    is not modelled: the statements about recorded bodies take the length
    read to be at most the number of bytes sent. *)
Definition read (self : t) (n : Z) : result bytes :=
  if (n <? -1)%Z then Raise ValueError
  else if (n =? -1)%Z then Ok (rfile self)
  else if (maxsize <? n)%Z then Raise OverflowError
  else Ok (take (Z.to_nat n) (rfile self)).

End Request.

(** What a handler asks of the transport, in order. *)
Inductive event : Type :=
| Sleep (secs : number)
| SendResponse (code : Z)
| SendHeader (keyword value : str)
| EndHeaders
| Write (data : bytes)
| SendError (code : Z).

(** The calls made, and the exception that ended them if one did. *)
Record outcome : Type := {
  events : list event;
  raised : option exn
}.

Definition emit (e : event) : outcome := {| events := [e]; raised := None |}.
Definition fail (e : exn) : outcome := {| events := []; raised := Some e |}.

Definition and_then (a b : outcome) : outcome :=
  match raised a with
  | Some _ => a
  | None => {| events := events a ++ events b; raised := raised b |}
  end.

Infix ">->" := and_then (at level 62, right associativity).

(** A response of either class. *)
Inductive response : Type :=
| Mocker (r : MockerResponse)
| Mocked (r : MockedResponse).

Module SimpleHandler.

(** Nanoseconds are kept in a signed 64-bit integer. *)
Definition time_min : Z := -9223372036854775808.
Definition time_max : Z := 9223372036854775807.

(** [bound <= m * 2^e * 10^9] and [bound < m * 2^e * 10^9], computed
    exactly. *)
Definition nanoseconds_reach (m : positive) (e : Z) (bound : Z) : bool :=
  if (0 <=? e)%Z
  then (bound <=? Z.pos m * 2 ^ e * 1000000000)%Z
  else (bound * 2 ^ (- e) <=? Z.pos m * 1000000000)%Z.

Definition nanoseconds_exceed (m : positive) (e : Z) (bound : Z) : bool :=
  if (0 <=? e)%Z
  then (bound <? Z.pos m * 2 ^ e * 1000000000)%Z
  else (bound * 2 ^ (- e) <? Z.pos m * 1000000000)%Z.

(** The exception [time.sleep(secs)] raises, if any.  The seconds are turned
    into nanoseconds first: an [int] whose nanoseconds do not fit 64 bits is
    an [OverflowError], as is a [float] whose product with [1e9], rounded to
    a double, is at least [2^63] or below [-2^63] (an infinity always is);
    a NaN and every other negative duration are a [ValueError].  The product
    rounds to [2^63] from [2^63 - 512] on, and below [-2^63] beyond
    [-(2^63 + 1024)]. *)
Definition sleep_error (secs : number) : option exn :=
  match secs with
  | PyInt z =>
      if ((z * 1000000000 <? time_min) || (time_max <? z * 1000000000))%Z
      then Some OverflowError
      else if (z <? 0)%Z then Some ValueError
      else None
  | PyFloat S754_nan => Some ValueError
  | PyFloat (S754_infinity _) => Some OverflowError
  | PyFloat (S754_zero _) => None
  | PyFloat (S754_finite false m e) =>
      if nanoseconds_reach m e (2 ^ 63 - 512) then Some OverflowError else None
  | PyFloat (S754_finite true m e) =>
      if nanoseconds_exceed m e (2 ^ 63 + 1024) then Some OverflowError
      else Some ValueError
  end.

(** [time.sleep(secs)] *)
Definition time_sleep (secs : number) : outcome :=
  match sleep_error secs with
  | Some e => fail e
  | None => emit (Sleep secs)
  end.

(** Text that [encode('latin-1', 'strict')] accepts. *)
Definition latin1 (s : str) : bool := forallb (fun c => c <=? 0xFF) s.

(** [self.send_header(keyword, value)] of the transport, for a request of
    HTTP/1.0 or later: the header line is encoded as latin-1 before it is
    buffered. *)
Definition send_header (keyword value : str) : outcome :=
  if latin1 keyword && latin1 value
  then emit (SendHeader keyword value)
  else fail UnicodeEncodeError.

(** [send_header(list(header.keys())[0], list(header.values())[0])] for each
    header; indexing an empty dict's keys raises. *)
Fixpoint send_headers (headers : list header) : outcome :=
  match headers with
  | [] => {| events := []; raised := None |}
  | h :: headers' =>
      match h with
      | [] => fail IndexError
      | (keyword, value) :: _ => send_header keyword value >-> send_headers headers'
      end
  end.

(** The builtin [len(x)]: a negative answer of [__len__] is a
    [ValueError].  An answer above [sys.maxsize] would be an
    [OverflowError]; the length of a [str] and the size of a file never
    are. *)
Definition builtin_len (n : Z) : result Z :=
  if (n <? 0)%Z then Raise ValueError else Ok n.

(** [wfile.write] takes a bytes-like object only. *)
Definition write (data : loaded) : outcome :=
  match data with
  | LoadedBytes b => emit (Write b)
  | LoadedStr _ => fail TypeError
  | LoadedNone => fail TypeError
  end.

Definition send {B} `{BodyWrapper B} (fs : FileSystem) (path : str)
    (response : Response.t B) : outcome :=
  time_sleep (Response.delay response) >->
  emit (SendResponse (Response.response_code response)) >->
  send_headers (Response.headers response) >->
  match builtin_len (body_len fs (Response.body response)) with
  | Ok length => send_header (lit "Content-length") (str_of_int length)
  | Raise e => fail e
  end >->
  emit EndHeaders >->
  match body_load fs (Response.body response) with
  | Ok data => write data
  | Raise e => fail e
  end.

Definition send_any (fs : FileSystem) (path : str) (r : response) : outcome :=
  match r with
  | Mocker r => send fs path r
  | Mocked r => send fs path r
  end.

Section Factory.

(** [int(s)] of the host for a [str]; [None] where it raises [ValueError]. *)
Variable int : str -> option Z.

Variable configuration : Configuration.t.

(** [response_map.get(method)]: the bound [get] of one of the five tables. *)
Definition response_map (method : str) : option (str -> option MockedResponse) :=
  if decide (method = lit "HEAD") then
    Some (fun path => Configuration.head_response_map configuration !! Some path)
  else if decide (method = lit "GET") then
    Some (fun path => Configuration.get_response_map configuration !! Some path)
  else if decide (method = lit "POST") then
    Some (fun path => Configuration.post_response_map configuration !! Some path)
  else if decide (method = lit "PUT") then
    Some (fun path => Configuration.put_response_map configuration !! Some path)
  else if decide (method = lit "DELETE") then
    Some (fun path => Configuration.delete_response_map configuration !! Some path)
  else None.

(** Lines 225 to 227: [X or 0 > 0] is [X or (0 > 0)]. *)
Definition read_content (self : Request.t) : result (option bytes) :=
  let header := Request.content_length self in
  if match header with Some h => truthy_str h | None => false end || (0 >? 0)%Z
  then
    match header with
    | Some h =>
        match int h with
        | Some n => bind (Request.read self n) (fun content => Ok (Some content))
        | None => Raise ValueError
        end
    | None => Raise TypeError
    end
  else Ok None.

Definition json_headers : list header :=
  [[(lit "Content-Type", lit "application/json")]].

Definition not_found_message (path : str) : value :=
  JDict [(lit "message", JStr (lit "path '" ++ path ++ lit "' not found"))].

(** The text of the [TypeError] raised by calling [None]. *)
Definition not_callable : str := lit "'NoneType' object is not callable".

Definition error_message (path err : str) : value :=
  JDict [(lit "message",
          JStr (lit "An error happened with path '" ++ path ++ lit "': " ++ err))].

(** The [try] block with its handler: calling the [None] that
    [response_map.get] returns for an unknown method is the one error it can
    meet. *)
Definition lookup_response (path method : str) : MockedResponse :=
  match response_map method with
  | Some get =>
      match get path with
      | Some response => response
      | None =>
          let body := dumps (not_found_message path) in
          Response.init (Some method) (Some path) (Some 404%Z)
            (Some json_headers) (Some body) None
      end
  | None =>
      let body := dumps (error_message path not_callable) in
      Response.init (Some method) (Some path) (Some 500%Z)
        (Some json_headers) (Some body) None
  end.

(** The registry is the module-level [REGISTRY]; it is returned with the
    result, unchanged when [add] raises. *)
Definition retrieve_response (self : Request.t) (path method : str)
    (REGISTRY : CallsRegistry.t) : CallsRegistry.t * result response :=
  if startswith path (lit "/mocker") then
    if decide (method = lit "GET") then
      let headers := json_headers in
      let d := dumps (JList (CallsRegistry.list REGISTRY)) in
      (REGISTRY,
       Ok (Mocker (Response.init (Some method) (Some path) (Some 200%Z)
                     (Some headers) (Some d) None)))
    else if decide (method = lit "DELETE") then
      (CallsRegistry.clear REGISTRY,
       Ok (Mocker (Response.init (Some method) (Some path) (Some 204%Z)
                     (Some []) (Some []) None)))
    else
      (REGISTRY,
       Ok (Mocker (Response.init (Some method) (Some path) (Some 500%Z)
                     (Some []) (Some (lit "Unknown method")) None)))
  else
    match read_content self with
    | Raise e => (REGISTRY, Raise e)
    | Ok content =>
        match CallsRegistry.add REGISTRY path method content with
        | Raise e => (REGISTRY, Raise e)
        | Ok REGISTRY' => (REGISTRY', Ok (Mocked (lookup_response path method)))
        end
    end.

(** The common shape of the five [do_*] methods. *)
Definition respond (method : str) (fs : FileSystem) (self : Request.t)
    (REGISTRY : CallsRegistry.t) : CallsRegistry.t * outcome :=
  match retrieve_response self (Request.path self) method REGISTRY with
  | (REGISTRY', Ok response) => (REGISTRY', send_any fs (Request.path self) response)
  | (REGISTRY', Raise e) => (REGISTRY', fail e)
  end.

Definition do_HEAD := respond (lit "HEAD").
Definition do_GET := respond (lit "GET").
Definition do_POST := respond (lit "POST").
Definition do_DELETE := respond (lit "DELETE").
Definition do_PUT := respond (lit "PUT").

(** The dispatch of [BaseHTTPRequestHandler.handle_one_request]: the method
    named [do_] followed by the command is called; where the class has no
    such method the transport answers 501 itself. *)
Definition handle_one_request (fs : FileSystem) (self : Request.t)
    (REGISTRY : CallsRegistry.t) : CallsRegistry.t * outcome :=
  let command := Request.command self in
  if decide (command = lit "HEAD") then do_HEAD fs self REGISTRY
  else if decide (command = lit "GET") then do_GET fs self REGISTRY
  else if decide (command = lit "POST") then do_POST fs self REGISTRY
  else if decide (command = lit "DELETE") then do_DELETE fs self REGISTRY
  else if decide (command = lit "PUT") then do_PUT fs self REGISTRY
  else (REGISTRY, emit (SendError 501)).

(** A run of requests, each served against the file system of its moment. *)
Fixpoint serve (requests : list (FileSystem * Request.t))
    (REGISTRY : CallsRegistry.t) : CallsRegistry.t * list outcome :=
  match requests with
  | [] => (REGISTRY, [])
  | (fs, self) :: requests' =>
      let '(REGISTRY', o) := handle_one_request fs self REGISTRY in
      let '(REGISTRY'', os) := serve requests' REGISTRY' in
      (REGISTRY'', o :: os)
  end.

End Factory.

End SimpleHandler.

(** ** A host to run the handler on *)

(** [int(s)] on a [str] of ASCII decimal digits.  Python's [int] also takes
    a sign, blanks around the number and underscores between digits; no
    theorem below depends on what [int] does, the handler is stated for
    every [int]. *)
Fixpoint int_of_digits_from (acc : Z) (s : str) : option Z :=
  match s with
  | [] => Some acc
  | c :: s' =>
      if (0x30 <=? c) && (c <=? 0x39)
      then int_of_digits_from (10 * acc + Z.of_N (c - 0x30))%Z s'
      else None
  end.

Definition int_of_digits (s : str) : option Z :=
  match s with
  | [] => None
  | _ :: _ => int_of_digits_from 0%Z s
  end.

(** [str.upper] on text of the ASCII range. *)
Definition ascii_upper (s : str) : str :=
  map (fun c => if (0x61 <=? c) && (c <=? 0x7A) then c - 0x20 else c) s.

(** A file system without files, and one that holds [greeting.txt] with the
    five characters [hello]. *)
Definition no_files : FileSystem :=
  {| read_text := fun _ => None; st_size := fun _ => None |}.

Definition greeting_files : FileSystem :=
  {| read_text := fun name =>
       if decide (name = lit "greeting.txt") then Some (lit "hello") else None;
     st_size := fun name =>
       if decide (name = lit "greeting.txt") then Some 5%Z else None |}.

(** The configuration built from an empty list of responses. *)
Definition empty_configuration : Configuration.t :=
  {| Configuration.hostname := lit "0.0.0.0";
     Configuration.port := 8000%Z;
     Configuration.head_response_map := ∅;
     Configuration.get_response_map := ∅;
     Configuration.post_response_map := ∅;
     Configuration.put_response_map := ∅;
     Configuration.delete_response_map := ∅ |}.

(** A configuration file with one response: [get /hello] answers 201 with
    the header [X-Kind: greeting] and the body [hi]. *)
Definition hello_declaration : Configuration.declaration :=
  {| Configuration.d_method := Some (lit "get");
     Configuration.d_path := Some (lit "/hello");
     Configuration.d_responseCode := Some 201%Z;
     Configuration.d_headers := Some [[(lit "X-Kind", lit "greeting")]];
     Configuration.d_body := Some (lit "hi");
     Configuration.d_delay := None |}.

(** A request without a [Content-Length] header. *)
Definition bare_request (command path : str) : Request.t :=
  {| Request.command := command;
     Request.path := path;
     Request.content_length := None;
     Request.rfile := [] |}.

(** A request that announces and sends [body]. *)
Definition request_with_body (command path : str) (body : bytes) : Request.t :=
  {| Request.command := command;
     Request.path := path;
     Request.content_length := Some (str_of_int (len_bytes body));
     Request.rfile := body |}.

(** ** Vocabulary of the statements *)

(** The text between two double quotes. *)
Definition quoted (s : str) : str := [0x22] ++ s ++ [0x22].

(** The bytes of a text of the ASCII range. *)
Definition ascii_bytes (s : str) : bytes := map byte_of_N s.

(** The text recorded for the bytes read: nothing for no body, the decoded
    text otherwise. *)
Definition decoded (content : option bytes) (body : option str) : Prop :=
  match content with
  | None => body = None
  | Some b => exists s, decode b = Ok s /\ body = Some s
  end.

(** The length a request announces, where [int] reads one, is at most the
    number of bytes it sends. *)
Definition buffered (int : str -> option Z) (self : Request.t) : Prop :=
  forall header n,
    Request.content_length self = Some header ->
    int header = Some n ->
    (n <= len_bytes (Request.rfile self))%Z.

(** The body of a request can be recorded: the length it announces can be
    buffered, and reading it and decoding it both succeed. *)
Definition recordable (int : str -> option Z) (self : Request.t)
    (body : option str) : Prop :=
  buffered int self /\
  exists content, SimpleHandler.read_content int self = Ok content /\
                  decoded content body.

(** A file system whose sizes are sizes of files: not negative and not
    above [sys.maxsize]. *)
Definition sizes_nonnegative (fs : FileSystem) : Prop :=
  forall name size, st_size fs name = Some size -> (0 <= size <= maxsize)%Z.

(** A header [send] can put on the connection: a mapping with an item whose
    key and value are latin-1 text. *)
Definition sendable (h : header) : Prop :=
  match h with
  | [] => False
  | (keyword, value) :: _ =>
      SimpleHandler.latin1 keyword = true /\ SimpleHandler.latin1 value = true
  end.

(** The commands the handler has a [do_*] method for. *)
Definition handled : list str :=
  [lit "HEAD"; lit "GET"; lit "POST"; lit "DELETE"; lit "PUT"].

(** No entry of a table has status code 0 or an empty path. *)
Definition sound_response (r : MockedResponse) : Prop :=
  Response.response_code r <> 0%Z /\ Response.path r <> [].

Definition sound_table (m : gmap (option str) MockedResponse) : Prop :=
  map_Forall (fun _ r => sound_response r) m.

Definition sound_configuration (c : Configuration.t) : Prop :=
  sound_table (Configuration.head_response_map c) /\
  sound_table (Configuration.get_response_map c) /\
  sound_table (Configuration.post_response_map c) /\
  sound_table (Configuration.put_response_map c) /\
  sound_table (Configuration.delete_response_map c).

(** A value of the shape [add] appends: a dict with the keys [method],
    [path] and [body], in this order. *)
Definition is_entry (v : value) : Prop :=
  exists method path body, v = CallsRegistry.entry method path body.

(** The table [response_map] selects for a method; a method without a table
    has no entries. *)
Definition table (configuration : Configuration.t) (method : str)
    : gmap (option str) MockedResponse :=
  if decide (method = lit "HEAD") then Configuration.head_response_map configuration
  else if decide (method = lit "GET") then Configuration.get_response_map configuration
  else if decide (method = lit "POST") then Configuration.post_response_map configuration
  else if decide (method = lit "PUT") then Configuration.put_response_map configuration
  else if decide (method = lit "DELETE") then Configuration.delete_response_map configuration
  else ∅.

(** The response object [_build_response_map] makes of a declaration. *)
Definition declared (response : Configuration.declaration) : MockedResponse :=
  Response.init (Configuration.d_method response) (Configuration.d_path response)
    (Configuration.d_responseCode response) (Configuration.d_headers response)
    (Configuration.d_body response) (Configuration.d_delay response).

(** A declaration [_build_response_map] can register: it names a method
    whose upper case is one of the five tables' keys. *)
Definition supported (upper : str -> str) (response : Configuration.declaration) : Prop :=
  exists m, Configuration.d_method response = Some m /\ In (upper m) handled.

(** The [send_header] calls for headers that each hold an item. *)
Fixpoint header_events (headers : list header) : list event :=
  match headers with
  | [] => []
  | [] :: headers' => header_events headers'
  | ((keyword, value) :: _) :: headers' =>
      SendHeader keyword value :: header_events headers'
  end.

(** A declaration of [get /mockery], a path under the introspection
    prefix. *)
Definition mockery_declaration : Configuration.declaration :=
  {| Configuration.d_method := Some (lit "get");
     Configuration.d_path := Some (lit "/mockery");
     Configuration.d_responseCode := Some 201%Z;
     Configuration.d_headers := None;
     Configuration.d_body := Some (lit "hi");
     Configuration.d_delay := None |}.

(** A request whose [Content-Length] header reads [header]. *)
Definition request_announcing (command path header : str) (rfile : bytes) : Request.t :=
  {| Request.command := command;
     Request.path := path;
     Request.content_length := Some header;
     Request.rfile := rfile |}.

(** A later declaration of [GET /hello], and a declaration without a
    path. *)
Definition hello_redeclared : Configuration.declaration :=
  {| Configuration.d_method := Some (lit "GET");
     Configuration.d_path := Some (lit "/hello");
     Configuration.d_responseCode := Some 202%Z;
     Configuration.d_headers := None;
     Configuration.d_body := Some (lit "again");
     Configuration.d_delay := None |}.

Definition pathless_declaration : Configuration.declaration :=
  {| Configuration.d_method := Some (lit "GET");
     Configuration.d_path := None;
     Configuration.d_responseCode := Some 200%Z;
     Configuration.d_headers := None;
     Configuration.d_body := Some (lit "root");
     Configuration.d_delay := None |}.

(** The 404 the dispatcher makes up for a path without an entry. *)
Definition not_found (method path : str) : MockedResponse :=
  Response.init (Some method) (Some path) (Some 404%Z)
    (Some SimpleHandler.json_headers)
    (Some (dumps (SimpleHandler.not_found_message path))) None.

(** * Properties *)

(** The length announced by a concrete request against the bytes it
    sends. *)
Ltac buffered_here :=
  let header := fresh "header" in
  let n := fresh "n" in
  let Hheader := fresh "Hheader" in
  let Hn := fresh "Hn" in
  intros header n Hheader Hn;
  first [ discriminate Hheader
        | injection Hheader as <-; vm_compute in Hn; injection Hn as <-;
          vm_compute; discriminate ].

(** ** The primitives on concrete values *)

Example lit_GET : lit "GET" = [0x47; 0x45; 0x54].
Proof. reflexivity. Qed.

Example encode_e_acute : encode [0xE9] = Ok [xc3; xa9].
Proof. reflexivity. Qed.

Example encode_euro : encode [0x20AC] = Ok [xe2; x82; xac].
Proof. reflexivity. Qed.

Example encode_lone_surrogate : encode [0xD800] = Raise UnicodeEncodeError.
Proof. reflexivity. Qed.

Example decode_euro : decode [xe2; x82; xac] = Ok [0x20AC].
Proof. reflexivity. Qed.

Example decode_overlong : decode [xc0; x80] = Raise UnicodeDecodeError.
Proof. reflexivity. Qed.

Example decode_encoded_surrogate : decode [xed; xa0; x80] = Raise UnicodeDecodeError.
Proof. reflexivity. Qed.

Example decode_stray_byte : decode [xff] = Raise UnicodeDecodeError.
Proof. reflexivity. Qed.

Example replace_scans_once :
  replace (lit "@fil@file://e://x") (lit "@file://") [] = lit "@file://x".
Proof. reflexivity. Qed.

Example str_of_int_14 : str_of_int 14 = lit "14".
Proof. reflexivity. Qed.

Example dumps_escapes :
  dumps (JStr [0x1F600; 0x22; 0x0A; 0x7F; 0xE9])
  = [0x22] ++ lit "\ud83d\ude00\" ++ [0x22] ++ lit "\n\u007f\u00e9" ++ [0x22].
Proof. reflexivity. Qed.

(** ** Prefixes, occurrences and replacement *)

Lemma startswith_iff (s prefix : str) :
  startswith s prefix = true <-> exists rest, s = prefix ++ rest.
Proof.
  revert s. induction prefix as [|p prefix IH]; intros s.
  - split; [intros _; exists s; reflexivity | intros _; destruct s; reflexivity].
  - destruct s as [|c s].
    + split; [discriminate | intros [rest Hrest]; discriminate].
    + cbn [startswith]. rewrite andb_true_iff, N.eqb_eq, IH. split.
      * intros [-> [rest ->]]. exists rest. reflexivity.
      * intros [rest Hrest]. injection Hrest as -> ->. eauto.
Qed.

Lemma startswith_app (prefix rest : str) : startswith (prefix ++ rest) prefix = true.
Proof. apply startswith_iff. eauto. Qed.

Lemma contains_iff (sub s : str) :
  contains sub s = true <-> exists pre post, s = pre ++ sub ++ post.
Proof.
  induction s as [|c s IH].
  - cbn [contains]. rewrite orb_false_r, startswith_iff. split.
    + intros [rest Hrest]. exists [], rest. exact Hrest.
    + intros (pre & post & Heq). destruct pre as [|x pre]; [|discriminate].
      exists post. exact Heq.
  - cbn [contains]. rewrite orb_true_iff, startswith_iff, IH. split.
    + intros [[rest Hrest] | (pre & post & ->)].
      * exists [], rest. exact Hrest.
      * exists (c :: pre), post. reflexivity.
    + intros (pre & post & Heq). destruct pre as [|x pre].
      * left. exists post. exact Heq.
      * right. injection Heq as -> ->. eauto.
Qed.

Lemma contains_false_cons (sub : str) (c : N) (s : str) :
  contains sub (c :: s) = false ->
  startswith (c :: s) sub = false /\ contains sub s = false.
Proof. cbn [contains]. intros H. apply orb_false_iff in H. exact H. Qed.

(** Characters still to be skipped are dropped without being looked at. *)
Lemma replace_from_skip (old new pre rest : str) :
  replace_from old new (length pre) (pre ++ rest) = replace_from old new 0 rest.
Proof.
  induction pre as [|c pre IH]; simpl.
  - reflexivity.
  - exact IH.
Qed.

Lemma replace_from_absent (old new s : str) :
  contains old s = false -> replace_from old new 0 s = s.
Proof.
  induction s as [|c s IH]; intros H.
  - reflexivity.
  - apply contains_false_cons in H as [Hhere Hlater].
    cbn [replace_from]. rewrite Hhere, IH by exact Hlater. reflexivity.
Qed.

Lemma replace_absent (s old new : str) :
  contains old s = false -> replace s old new = s.
Proof.
  destruct old as [|o old]; intros H.
  - destruct s; discriminate.
  - apply replace_from_absent. exact H.
Qed.

(** Deleting a non-empty [old] from a string that starts with it deletes it
    from the remainder. *)
Lemma replace_prefix_deleted (old rest : str) :
  old <> [] -> replace (old ++ rest) old [] = replace rest old [].
Proof.
  destruct old as [|o old]; intros Hne; [contradiction|].
  unfold replace. change ((o :: old) ++ rest) with (o :: (old ++ rest)).
  cbn [replace_from].
  change (o :: (old ++ rest)) with ((o :: old) ++ rest).
  rewrite startswith_app. cbn [app length].
  replace (S (length old) - 1)%nat with (length old) by lia.
  apply replace_from_skip.
Qed.

(** ** File-backed and inline bodies *)

Lemma init_content (raw : str) :
  MockedResponseBody.content (MockedResponseBody.init (Some raw)) = raw.
Proof. destruct raw; reflexivity. Qed.

Lemma init_is_file (raw : str) :
  MockedResponseBody.is_file (MockedResponseBody.init (Some raw))
  = contains (lit "@file://") raw.
Proof. destruct raw; reflexivity. Qed.

Lemma init_filename (raw : str) :
  MockedResponseBody.filename (MockedResponseBody.init (Some raw))
  = replace raw (lit "@file://") [].
Proof. destruct raw; reflexivity. Qed.

Lemma inline_len (fs : FileSystem) (b : MockedResponseBody.t) :
  MockedResponseBody.is_file b = false ->
  MockedResponseBody.__len__ fs b = len (MockedResponseBody.content b).
Proof. intros H. unfold MockedResponseBody.__len__. rewrite H. reflexivity. Qed.

(** On text of the ASCII range the two lengths agree. *)
Lemma encode_ascii (s : str) :
  Forall (fun c => c < 0x80) s ->
  exists bs, encode s = Ok bs /\ len_bytes bs = len s.
Proof.
  induction 1 as [|c s Hc _ [bs [Hbs Hlen]]].
  - exists []. split; reflexivity.
  - exists (byte_of_N c :: bs). split.
    + cbn [encode]. unfold utf8_encode_char.
      apply N.ltb_lt in Hc. rewrite Hc, Hbs. reflexivity.
    + unfold len_bytes, len in *. cbn [length]. lia.
Qed.

(** C2, as stated, fails: the raw string [x@file://y] does not start with
    the marker, yet its body is file-backed, and the name opened is [xy]. *)
Lemma C2_marker_inside_is_file_backed :
  startswith (lit "x@file://y") (lit "@file://") = false /\
  MockedResponseBody.is_file (MockedResponseBody.init (Some (lit "x@file://y"))) = true /\
  MockedResponseBody.filename (MockedResponseBody.init (Some (lit "x@file://y")))
  = lit "xy".
Proof. repeat split; reflexivity. Qed.

(** C2, amended: a body is file-backed exactly when the marker [@file://]
    occurs anywhere in the raw string; [load] then opens the raw string with
    every occurrence of the marker deleted, which is the remainder after the
    prefix when the string starts with the marker and the remainder holds no
    further occurrence; any other string gives an inline body that holds the
    raw string unchanged and loads as its UTF-8 encoding. *)
Theorem C2_file_backed_iff_marker_occurs (fs : FileSystem) (raw : str) :
  (MockedResponseBody.is_file (MockedResponseBody.init (Some raw)) = true
   <-> exists pre post, raw = pre ++ lit "@file://" ++ post) /\
  (MockedResponseBody.is_file (MockedResponseBody.init (Some raw)) = true ->
   MockedResponseBody.load fs (MockedResponseBody.init (Some raw))
   = match read_text fs (replace raw (lit "@file://") []) with
     | Some text => Ok (LoadedStr text)
     | None => Ok LoadedNone
     end) /\
  (forall rest,
     raw = lit "@file://" ++ rest ->
     contains (lit "@file://") rest = false ->
     MockedResponseBody.is_file (MockedResponseBody.init (Some raw)) = true /\
     MockedResponseBody.filename (MockedResponseBody.init (Some raw)) = rest) /\
  (MockedResponseBody.is_file (MockedResponseBody.init (Some raw)) = false ->
   MockedResponseBody.content (MockedResponseBody.init (Some raw)) = raw /\
   MockedResponseBody.load fs (MockedResponseBody.init (Some raw))
   = bind (encode raw) (fun b => Ok (LoadedBytes b))).
Proof.
  repeat split.
  - rewrite init_is_file. apply contains_iff.
  - rewrite init_is_file. apply contains_iff.
  - intros Hfile. unfold MockedResponseBody.load.
    rewrite Hfile, init_filename. reflexivity.
  - subst raw. rewrite init_is_file. apply contains_iff.
    exists [], rest. reflexivity.
  - subst raw. rewrite init_filename, replace_prefix_deleted by discriminate.
    apply replace_absent. assumption.
  - apply init_content.
  - unfold MockedResponseBody.load. rewrite H, init_content. reflexivity.
Qed.

Lemma C2_file_backed_iff_marker_occurs_witness :
  MockedResponseBody.is_file
    (MockedResponseBody.init (Some (lit "@file://greeting.txt"))) = true /\
  MockedResponseBody.filename
    (MockedResponseBody.init (Some (lit "@file://greeting.txt")))
  = lit "greeting.txt".
Proof.
  destruct (C2_file_backed_iff_marker_occurs no_files (lit "@file://greeting.txt"))
    as (_ & _ & Hprefix & _).
  apply (Hprefix (lit "greeting.txt")); reflexivity.
Defined.

(** C3 on the inline body [é] (U+00E9): [len] answers 1, the number of
    characters, while [load] yields the two bytes of its UTF-8 encoding; the
    [Content-length] header sent is [1] and two bytes follow. *)
Theorem C3_inline_length_counts_characters :
  MockedResponseBody.is_file (MockedResponseBody.init (Some [0xE9])) = false /\
  MockedResponseBody.__len__ no_files (MockedResponseBody.init (Some [0xE9])) = 1%Z /\
  MockedResponseBody.load no_files (MockedResponseBody.init (Some [0xE9]))
  = Ok (LoadedBytes [xc3; xa9]) /\
  SimpleHandler.send no_files (lit "/")
    (Response.init (B := MockedResponseBody.t)
       None None None None (Some [0xE9]) None)
  = {| events := [Sleep (PyInt 0); SendResponse 200;
                  SendHeader (lit "Content-length") (lit "1");
                  EndHeaders; Write [xc3; xa9]];
       raised := None |}.
Proof. repeat split; reflexivity. Qed.

(** C7: a file-backed body whose file cannot be examined when its length is
    asked has length 4, the length of the text [None]. *)
Theorem C7_len_of_inaccessible_file (fs : FileSystem) (content : option str) :
  MockedResponseBody.is_file (MockedResponseBody.init content) = true ->
  st_size fs (MockedResponseBody.filename (MockedResponseBody.init content)) = None ->
  MockedResponseBody.__len__ fs (MockedResponseBody.init content) = 4%Z /\
  MockedResponseBody.__len__ fs (MockedResponseBody.init content)
  = len_bytes (blit "None").
Proof.
  intros Hfile Hstat. unfold MockedResponseBody.__len__.
  rewrite Hfile, Hstat. split; reflexivity.
Qed.

Lemma C7_len_of_inaccessible_file_witness :
  MockedResponseBody.__len__ no_files
    (MockedResponseBody.init (Some (lit "@file://missing.txt"))) = 4%Z /\
  MockedResponseBody.__len__ no_files
    (MockedResponseBody.init (Some (lit "@file://missing.txt")))
  = len_bytes (blit "None").
Proof.
  apply (C7_len_of_inaccessible_file no_files (Some (lit "@file://missing.txt")));
    reflexivity.
Defined.

(** A file-backed body never loads as bytes, and its [load] never raises:
    it hands back the text read, or [None]. *)
Lemma load_file_backed (fs : FileSystem) (b : MockedResponseBody.t) :
  MockedResponseBody.is_file b = true ->
  (exists text, MockedResponseBody.load fs b = Ok (LoadedStr text)) \/
  MockedResponseBody.load fs b = Ok LoadedNone.
Proof.
  intros Hfile. unfold MockedResponseBody.load. rewrite Hfile.
  destruct (read_text fs (MockedResponseBody.filename b)) as [text|]; eauto.
Qed.

(** C4 on the body [@file://greeting.txt]: with the file holding [hello],
    [load] returns the text [hello], a [str] and not bytes, so that [send]
    announces a length of 5, ends the headers and fails in [wfile.write]
    without a body byte written; with the file missing, [load] returns
    [None] without raising, and [send] announces a length of 4 and fails in
    the same way after the status line and headers. *)
Theorem C4_file_body_is_loaded_as_text :
  MockedResponseBody.load greeting_files
    (MockedResponseBody.init (Some (lit "@file://greeting.txt")))
  = Ok (LoadedStr (lit "hello")) /\
  SimpleHandler.send greeting_files (lit "/")
    (Response.init (B := MockedResponseBody.t)
       None None None None (Some (lit "@file://greeting.txt")) None)
  = {| events := [Sleep (PyInt 0); SendResponse 200;
                  SendHeader (lit "Content-length") (lit "5"); EndHeaders];
       raised := Some TypeError |} /\
  MockedResponseBody.load no_files
    (MockedResponseBody.init (Some (lit "@file://greeting.txt")))
  = Ok LoadedNone /\
  SimpleHandler.send no_files (lit "/")
    (Response.init (B := MockedResponseBody.t)
       None None None None (Some (lit "@file://greeting.txt")) None)
  = {| events := [Sleep (PyInt 0); SendResponse 200;
                  SendHeader (lit "Content-length") (lit "4"); EndHeaders];
       raised := Some TypeError |}.
Proof. repeat split; reflexivity. Qed.

(** ** The constructor's defaults *)

Lemma init_response_code {B} `{BodyWrapper B} method path response_code headers body delay :
  Response.response_code
    (Response.init (B := B) method path response_code headers body delay) <> 0%Z.
Proof.
  cbn. destruct response_code as [c|]; [|discriminate].
  unfold truthy_int. destruct (Z.eqb_spec c 0); cbn; [discriminate|assumption].
Qed.

Lemma init_path {B} `{BodyWrapper B} method path response_code headers body delay :
  Response.path
    (Response.init (B := B) method path response_code headers body delay) <> [].
Proof.
  cbn. destruct path as [[|c p]|]; discriminate.
Qed.

Lemma init_sound method path response_code headers body delay :
  sound_response (Response.init method path response_code headers body delay).
Proof. split; [apply init_response_code | apply init_path]. Qed.

Lemma sound_table_insert m key r :
  sound_table m -> sound_response r -> sound_table (<[key := r]> m).
Proof. intros Hm Hr. apply map_Forall_insert_2; assumption. Qed.

Lemma add_response_sound upper self response self' :
  sound_configuration self ->
  Configuration.add_response upper self response = Ok self' ->
  sound_configuration self'.
Proof.
  intros (Hh & Hg & Hpo & Hpu & Hd) Hadd.
  unfold Configuration.add_response in Hadd.
  destruct (Configuration.d_method response) as [m|]; [|discriminate].
  repeat case_decide; try discriminate;
    injection Hadd as <-; unfold sound_configuration; cbn;
    repeat apply conj; try assumption;
    apply sound_table_insert; try assumption; apply init_sound.
Qed.

Lemma build_response_map_sound upper responses self self' :
  sound_configuration self ->
  Configuration._build_response_map upper self responses = Ok self' ->
  sound_configuration self'.
Proof.
  revert self. induction responses as [|response responses IH]; intros self Hs Hb.
  - injection Hb as <-. exact Hs.
  - cbn [Configuration._build_response_map] in Hb.
    destruct (Configuration.add_response upper self response) as [self1|e] eqn:Hadd;
      [|discriminate].
    cbn [bind] in Hb. eapply IH; [|exact Hb].
    eapply add_response_sound; eassumption.
Qed.

(** C10: the constructor takes the default for every falsy argument: a
    response code that is missing or 0 becomes 200, a missing or empty path
    becomes [/], a missing or empty method becomes [GET], a missing or zero
    delay becomes 0, a missing body becomes the empty inline body; hence no
    response has status code 0 or an empty path, and no table built from a
    configuration holds one. *)
Theorem C10_constructor_defaults {B} `{BodyWrapper B}
    (method path : option str) (response_code : option Z)
    (headers : option (list header)) (body : option str)
    (delay : option number) :
  (response_code = None \/ response_code = Some 0%Z ->
   Response.response_code
     (Response.init (B := B) method path response_code headers body delay) = 200%Z) /\
  (path = None \/ path = Some [] ->
   Response.path
     (Response.init (B := B) method path response_code headers body delay) = lit "/") /\
  (method = None \/ method = Some [] ->
   Response.method
     (Response.init (B := B) method path response_code headers body delay) = lit "GET") /\
  (delay = None \/ delay = Some (PyInt 0) \/ (exists sign, delay = Some (PyFloat (S754_zero sign))) ->
   Response.delay
     (Response.init (B := B) method path response_code headers body delay) = PyInt 0) /\
  (headers = None \/ headers = Some [] ->
   Response.headers
     (Response.init (B := B) method path response_code headers body delay) = []) /\
  (body = None ->
   Response.body
     (Response.init (B := MockedResponseBody.t) method path response_code headers body delay)
   = MockedResponseBody.init (Some []) /\
   MockedResponseBody.is_file (MockedResponseBody.init None) = false /\
   MockedResponseBody.content (MockedResponseBody.init None) = [] /\
   MockedResponseBody.load no_files (MockedResponseBody.init None) = Ok (LoadedBytes [])) /\
  Response.response_code
    (Response.init (B := B) method path response_code headers body delay) <> 0%Z /\
  Response.path
    (Response.init (B := B) method path response_code headers body delay) <> [] /\
  (forall upper hostname port responses configuration,
     Configuration.init upper hostname port responses = Ok configuration ->
     sound_configuration configuration).
Proof.
  repeat apply conj.
  - intros [-> | ->]; reflexivity.
  - intros [-> | ->]; reflexivity.
  - intros [-> | ->]; reflexivity.
  - intros [-> | [-> | [sign ->]]]; reflexivity.
  - intros [-> | ->]; reflexivity.
  - intros ->. repeat apply conj; reflexivity.
  - apply init_response_code.
  - apply init_path.
  - intros upper hostname port responses configuration Hinit.
    eapply build_response_map_sound; [|exact Hinit].
    unfold sound_configuration; cbn. repeat apply conj; apply map_Forall_empty.
Qed.

Lemma C10_constructor_defaults_witness :
  Response.response_code
    (Response.init (B := MockedResponseBody.t)
       (Some []) (Some []) (Some 0%Z) None None None) = 200%Z /\
  Response.path
    (Response.init (B := MockedResponseBody.t)
       (Some []) (Some []) (Some 0%Z) None None None) = lit "/".
Proof.
  destruct (C10_constructor_defaults (B := MockedResponseBody.t)
              (Some []) (Some []) (Some 0%Z) None None None)
    as (Hcode & Hpath & _).
  split; [apply Hcode | apply Hpath]; right; reflexivity.
Defined.

(** ** JSON text of plain strings *)

Lemma escape_char_plain (c : N) : plain c = true -> escape_char c = [c].
Proof.
  unfold plain, escape_char. intros H.
  apply andb_true_iff in H as [H Hbackslash].
  apply andb_true_iff in H as [H Hquote].
  apply andb_true_iff in H as [Hlow Hhigh].
  apply negb_true_iff in Hbackslash, Hquote.
  rewrite Hbackslash, Hquote, Hlow, Hhigh.
  apply N.leb_le in Hlow.
  repeat match goal with
         | |- context [?a =? ?b] => destruct (N.eqb_spec a b); [lia|]
         end.
  reflexivity.
Qed.

Lemma escape_plain (s : str) :
  Forall (fun c => plain c = true) s -> concat (map escape_char s) = s.
Proof.
  induction 1 as [|c s Hc _ IH]; cbn [map concat].
  - reflexivity.
  - rewrite (escape_char_plain c Hc), IH. reflexivity.
Qed.

Lemma encode_basestring_ascii_plain (s : str) :
  Forall (fun c => plain c = true) s -> encode_basestring_ascii s = quoted s.
Proof.
  intros H. unfold encode_basestring_ascii, quoted.
  rewrite (escape_plain s H). reflexivity.
Qed.

Lemma plain_lit_path : Forall (fun c => plain c = true) (lit "path '").
Proof. repeat constructor. Qed.

Lemma plain_lit_not_found : Forall (fun c => plain c = true) (lit "' not found").
Proof. repeat constructor. Qed.

Lemma dumps_not_found_message (path : str) :
  Forall (fun c => plain c = true) path ->
  dumps (SimpleHandler.not_found_message path)
  = lit "{" ++ quoted (lit "message") ++ lit ": "
    ++ quoted (lit "path '" ++ path ++ lit "' not found") ++ lit "}".
Proof.
  intros Hplain. unfold SimpleHandler.not_found_message.
  cbn [dumps map join fst snd].
  rewrite (encode_basestring_ascii_plain (lit "path '" ++ path ++ lit "' not found")).
  - reflexivity.
  - apply Forall_app. split; [apply plain_lit_path|].
    apply Forall_app. split; [exact Hplain | apply plain_lit_not_found].
Qed.

(** ** Decoding and the registry *)

Lemma decode_raises_decode_error (n : nat) :
  forall (bs : bytes) (e : exn),
    (length bs <= n)%nat -> decode bs = Raise e -> e = UnicodeDecodeError.
Proof.
  induction n as [|n IH]; intros bs e Hlen Hdec.
  - destruct bs; [discriminate | cbn in Hlen; lia].
  - destruct bs as [|b0 r0]; [discriminate|].
    cbn [length] in Hlen. cbn [decode] in Hdec.
    repeat match type of Hdec with
           | (if ?c then _ else _) = _ => destruct c
           | match ?l with [] => _ | _ :: _ => _ end = _ =>
               destruct l; cbn [length] in Hlen
           | push _ (decode ?l) = _ =>
               let H := fresh "Hrest" in
               destruct (decode l) eqn:H;
               [discriminate | apply IH in H; [|lia]]
           end;
      cbn in Hdec; congruence.
Qed.

(** [add] raises exactly when a body is present and is not valid UTF-8, and
    the error is then a decoding error. *)
Lemma add_raises_iff (self : CallsRegistry.t) (method path : str)
    (body : option bytes) (e : exn) :
  CallsRegistry.add self method path body = Raise e <->
  e = UnicodeDecodeError /\
  exists b, body = Some b /\ decode b = Raise UnicodeDecodeError.
Proof.
  unfold CallsRegistry.add. destruct body as [b|]; cbn [bind].
  - destruct (decode b) as [s|e'] eqn:Hdec; cbn [bind].
    + split; [discriminate|]. intros [_ (b' & Hb & Hraise)].
      injection Hb as <-. congruence.
    + pose proof (decode_raises_decode_error (length b) b e' (le_n _) Hdec) as ->.
      split.
      * intros He. injection He as <-. split; [reflexivity|]. eauto.
      * intros [-> _]. reflexivity.
  - split; [discriminate|]. intros [_ (b & Hb & _)]. discriminate.
Qed.

Lemma add_decoded (self : CallsRegistry.t) (method path : str)
    (content : option bytes) (body : option str) :
  decoded content body ->
  CallsRegistry.add self method path content
  = Ok (self ++ [CallsRegistry.entry method path body]).
Proof.
  unfold decoded, CallsRegistry.add. destruct content as [b|].
  - intros (s & -> & ->). reflexivity.
  - intros ->. reflexivity.
Qed.


(** ** The dispatcher *)

Section Dispatcher.

Variable int : str -> option Z.
Variable configuration : Configuration.t.

Lemma response_map_handled (method : str) :
  In method handled <->
  exists get, SimpleHandler.response_map configuration method = Some get.
Proof using Type.
  clear int. unfold SimpleHandler.response_map, handled. split.
  - intros Hin. repeat case_decide; eauto.
    cbn [In] in Hin. intuition congruence.
  - intros [get Hget]. cbn [In].
    repeat case_decide; try discriminate; subst; auto 10.
Qed.

(** A request off the introspection path whose body can be recorded is
    appended to the registry, [path] first and [method] second as the call
    passes them, and answered from the table. *)
Lemma retrieve_response_mock (self : Request.t) (path method : str)
    (REGISTRY : CallsRegistry.t) (body : option str) :
  startswith path (lit "/mocker") = false ->
  recordable int self body ->
  SimpleHandler.retrieve_response int configuration self path method REGISTRY
  = (REGISTRY ++ [CallsRegistry.entry path method body],
     Ok (Mocked (SimpleHandler.lookup_response configuration path method))).
Proof.
  intros Hpath (_ & content & Hread & Hdec).
  unfold SimpleHandler.retrieve_response.
  rewrite Hpath, Hread, (add_decoded _ _ _ _ _ Hdec). reflexivity.
Qed.

(** On the introspection path nothing is appended: [DELETE] empties the
    registry, every other method leaves it as it is. *)
Lemma retrieve_response_introspection (self : Request.t) (path method : str)
    (REGISTRY : CallsRegistry.t) :
  startswith path (lit "/mocker") = true ->
  fst (SimpleHandler.retrieve_response int configuration self path method REGISTRY)
  = if decide (method = lit "DELETE") then [] else REGISTRY.
Proof.
  intros Hpath. unfold SimpleHandler.retrieve_response. rewrite Hpath.
  repeat case_decide; try reflexivity.
  subst method. discriminate.
Qed.

Lemma retrieve_response_unknown_method (self : Request.t) (path method : str)
    (REGISTRY : CallsRegistry.t) :
  startswith path (lit "/mocker") = true ->
  method <> lit "GET" ->
  method <> lit "DELETE" ->
  SimpleHandler.retrieve_response int configuration self path method REGISTRY
  = (REGISTRY,
     Ok (Mocker (Response.init (Some method) (Some path) (Some 500%Z)
                   (Some []) (Some (lit "Unknown method")) None))).
Proof.
  intros Hpath Hget Hdelete. unfold SimpleHandler.retrieve_response.
  rewrite Hpath, !decide_False by assumption. reflexivity.
Qed.

Lemma lookup_response_not_found (path method : str)
    (get : str -> option MockedResponse) :
  SimpleHandler.response_map configuration method = Some get ->
  get path = None ->
  SimpleHandler.lookup_response configuration path method
  = Response.init (Some method) (Some path) (Some 404%Z)
      (Some SimpleHandler.json_headers)
      (Some (dumps (SimpleHandler.not_found_message path))) None.
Proof.
  intros Hmap Hget. unfold SimpleHandler.lookup_response.
  rewrite Hmap, Hget. reflexivity.
Qed.

(** [handle_one_request] calls the [do_*] method of a handled command. *)
Lemma handle_one_request_handled (fs : FileSystem) (self : Request.t)
    (REGISTRY : CallsRegistry.t) :
  In (Request.command self) handled ->
  SimpleHandler.handle_one_request int configuration fs self REGISTRY
  = SimpleHandler.respond int configuration (Request.command self) fs self REGISTRY.
Proof.
  unfold handled. cbn [In]. unfold SimpleHandler.handle_one_request.
  intros [<- | [<- | [<- | [<- | [<- | []]]]]]; reflexivity.
Qed.

Lemma handle_one_request_records (fs : FileSystem) (self : Request.t)
    (REGISTRY : CallsRegistry.t) (body : option str) :
  In (Request.command self) handled ->
  startswith (Request.path self) (lit "/mocker") = false ->
  recordable int self body ->
  fst (SimpleHandler.handle_one_request int configuration fs self REGISTRY)
  = REGISTRY ++ [CallsRegistry.entry (Request.path self) (Request.command self) body].
Proof.
  intros Hcommand Hpath Hbody.
  rewrite handle_one_request_handled by exact Hcommand.
  unfold SimpleHandler.respond.
  rewrite (retrieve_response_mock _ _ _ _ body Hpath Hbody). reflexivity.
Qed.

(** What a run of handled requests off the introspection path leaves in the
    registry: one entry per request, in arrival order, each holding the
    request's path under [method] and its command under [path]. *)
Lemma serve_records (requests : list (FileSystem * Request.t))
    (bodies : list (option str)) (REGISTRY : CallsRegistry.t) :
  Forall2 (fun request body =>
             In (Request.command (snd request)) handled /\
             startswith (Request.path (snd request)) (lit "/mocker") = false /\
             recordable int (snd request) body)
          requests bodies ->
  fst (SimpleHandler.serve int configuration requests REGISTRY)
  = REGISTRY
    ++ zip_with (fun request body =>
                   CallsRegistry.entry (Request.path (snd request))
                     (Request.command (snd request)) body)
         requests bodies.
Proof.
  intros Hall. revert REGISTRY.
  induction Hall as [|[fs self] body requests bodies (Hc & Hp & Hb) _ IH];
    intros REGISTRY.
  - cbn. rewrite app_nil_r. reflexivity.
  - cbn [SimpleHandler.serve zip_with snd].
    pose proof (handle_one_request_records fs self REGISTRY body Hc Hp Hb) as Hone.
    cbn [snd] in Hone.
    destruct (SimpleHandler.handle_one_request int configuration fs self REGISTRY)
      as [REGISTRY1 o].
    cbn [fst] in Hone. subst REGISTRY1.
    specialize (IH (REGISTRY ++ [CallsRegistry.entry (Request.path self)
                                   (Request.command self) body])).
    destruct (SimpleHandler.serve int configuration requests _) as [REGISTRY2 os].
    cbn [fst] in *. rewrite IH, <- app_assoc. reflexivity.
Qed.

End Dispatcher.

(** ** The registry seen through the introspection path *)

(** C1 on the request [GET /a] without a body, followed by [GET /mocker]:
    the entry recorded holds the path [/a] under the key [method] and the
    method [GET] under the key [path], because [retrieve_response] calls
    [add(path, method, content)] where [add] takes [(method, path, body)];
    the introspection answer serialises the entry with the two fields
    exchanged. *)
Theorem C1_registry_exchanges_method_and_path :
  fst (SimpleHandler.handle_one_request int_of_digits empty_configuration no_files
         (bare_request (lit "GET") (lit "/a")) [])
  = [JDict [(lit "method", JStr (lit "/a"));
            (lit "path", JStr (lit "GET"));
            (lit "body", JNone)]] /\
  SimpleHandler.handle_one_request int_of_digits empty_configuration no_files
    (bare_request (lit "GET") (lit "/mocker"))
    [JDict [(lit "method", JStr (lit "/a"));
            (lit "path", JStr (lit "GET"));
            (lit "body", JNone)]]
  = ([JDict [(lit "method", JStr (lit "/a"));
             (lit "path", JStr (lit "GET"));
             (lit "body", JNone)]],
     {| events :=
          [Sleep (PyInt 0); SendResponse 200;
           SendHeader (lit "Content-Type") (lit "application/json");
           SendHeader (lit "Content-length") (lit "47");
           EndHeaders;
           Write (ascii_bytes
                    (lit "[{" ++ quoted (lit "method") ++ lit ": " ++ quoted (lit "/a")
                     ++ lit ", " ++ quoted (lit "path") ++ lit ": " ++ quoted (lit "GET")
                     ++ lit ", " ++ quoted (lit "body") ++ lit ": null}]"))];
        raised := None |}).
Proof. split; vm_compute; reflexivity. Qed.

(** C5 on the request [POST /x] that announces one byte and sends [0xff]:
    [add] raises the decoding error, and since the call stands before the
    [try] of [retrieve_response] the error leaves [do_POST]: nothing is
    sent, no status line and no 500. *)
Theorem C5_decoding_error_is_not_answered :
  CallsRegistry.add [] (lit "/x") (lit "POST") (Some [xff])
  = Raise UnicodeDecodeError /\
  SimpleHandler.retrieve_response int_of_digits empty_configuration
    (request_with_body (lit "POST") (lit "/x") [xff]) (lit "/x") (lit "POST") []
  = ([], Raise UnicodeDecodeError) /\
  SimpleHandler.handle_one_request int_of_digits empty_configuration no_files
    (request_with_body (lit "POST") (lit "/x") [xff]) []
  = ([], {| events := []; raised := Some UnicodeDecodeError |}).
Proof. repeat split; vm_compute; reflexivity. Qed.

(** C6, as stated, fails: the path of [POST /x] with the one-byte body
    [0xff] does not start with [/mocker], and the registry is as empty after
    the request as before. *)
Lemma C6_undecodable_body_is_not_recorded :
  startswith (lit "/x") (lit "/mocker") = false /\
  fst (SimpleHandler.handle_one_request int_of_digits empty_configuration no_files
         (request_with_body (lit "POST") (lit "/x") [xff]) [])
  = [].
Proof. split; vm_compute; reflexivity. Qed.

(** C6, amended: for every request whose path does not start with
    [/mocker] and whose body is absent or is read and decoded as UTF-8
    without error (the length announced being at most the number of bytes
    sent), the dispatcher appends exactly one record before the
    table lookup, whatever the lookup finds, so the registry grows by one
    also for the requests answered 404; a request on the introspection path
    is never recorded: [DELETE] empties the registry and every other method
    leaves it as it is. *)
Theorem C6_recording_precedes_lookup (int : str -> option Z)
    (configuration : Configuration.t) (self : Request.t) (method : str)
    (REGISTRY : CallsRegistry.t) :
  (startswith (Request.path self) (lit "/mocker") = false ->
   forall body, recordable int self body ->
     SimpleHandler.retrieve_response int configuration self
       (Request.path self) method REGISTRY
     = (REGISTRY ++ [CallsRegistry.entry (Request.path self) method body],
        Ok (Mocked (SimpleHandler.lookup_response configuration
                      (Request.path self) method))) /\
     length (fst (SimpleHandler.retrieve_response int configuration self
                    (Request.path self) method REGISTRY))
     = S (length REGISTRY)) /\
  (startswith (Request.path self) (lit "/mocker") = true ->
   fst (SimpleHandler.retrieve_response int configuration self
          (Request.path self) method REGISTRY)
   = if decide (method = lit "DELETE") then [] else REGISTRY).
Proof.
  split.
  - intros Hpath body Hbody.
    rewrite (retrieve_response_mock int configuration self _ method REGISTRY body Hpath Hbody).
    split; [reflexivity|]. cbn [fst]. rewrite length_app. cbn [length]. lia.
  - apply retrieve_response_introspection.
Qed.

Lemma C6_recording_precedes_lookup_witness :
  SimpleHandler.retrieve_response int_of_digits empty_configuration
    (request_with_body (lit "POST") (lit "/orders") (blit "hi"))
    (lit "/orders") (lit "POST") []
  = ([CallsRegistry.entry (lit "/orders") (lit "POST") (Some (lit "hi"))],
     Ok (Mocked (SimpleHandler.lookup_response empty_configuration
                   (lit "/orders") (lit "POST")))).
Proof.
  destruct (C6_recording_precedes_lookup int_of_digits empty_configuration
              (request_with_body (lit "POST") (lit "/orders") (blit "hi"))
              (lit "POST") []) as [Hmock _].
  apply (Hmock eq_refl (Some (lit "hi"))).
  split; [buffered_here|]. exists (Some (blit "hi")). split; [reflexivity|].
  exists (lit "hi"). split; reflexivity.
Defined.

(** ** The text [json.dumps] writes *)

Lemma hex_digit_ascii (d : N) : d < 16 -> hex_digit d < 0x80.
Proof.
  intros Hd. unfold hex_digit. destruct (N.ltb_spec d 10); lia.
Qed.

Lemma nibble_bound (n : N) : N.land n 0xF < 16.
Proof.
  change 0xF with (N.ones 4). rewrite N.land_ones.
  apply N.mod_upper_bound. discriminate.
Qed.

Lemma u_escape_ascii (n : N) : Forall (fun c => c < 0x80) (u_escape n).
Proof.
  unfold u_escape, hex4. cbn [app].
  repeat constructor; try (apply hex_digit_ascii, nibble_bound); lia.
Qed.

Lemma escape_char_ascii (c : N) : Forall (fun c => c < 0x80) (escape_char c).
Proof.
  unfold escape_char.
  repeat match goal with
         | |- context [if ?b then _ else _] => destruct b eqn:?
         end;
    try (repeat constructor; lia);
    try apply u_escape_ascii.
  - apply andb_true_iff in Heqb6 as [_ Hhigh]. apply N.leb_le in Hhigh.
    repeat constructor. lia.
  - apply Forall_app. split; apply u_escape_ascii.
Qed.

Lemma encode_basestring_ascii_ascii (s : str) :
  Forall (fun c => c < 0x80) (encode_basestring_ascii s).
Proof.
  unfold encode_basestring_ascii.
  apply Forall_app. split; [repeat constructor; lia|].
  apply Forall_app. split; [|repeat constructor; lia].
  induction s as [|c s IH]; cbn [map concat].
  - constructor.
  - apply Forall_app. split; [apply escape_char_ascii | exact IH].
Qed.

Lemma join_ascii (sep : str) (parts : list str) :
  Forall (fun c => c < 0x80) sep ->
  Forall (Forall (fun c => c < 0x80)) parts ->
  Forall (fun c => c < 0x80) (join sep parts).
Proof.
  intros Hsep Hparts. induction Hparts as [|p parts Hp Hparts IH].
  - constructor.
  - cbn [join]. destruct parts as [|q parts]; [exact Hp|].
    apply Forall_app. split; [exact Hp|].
    apply Forall_app. split; [exact Hsep | exact IH].
Qed.

Lemma lit_comma_ascii : Forall (fun c => c < 0x80) (lit ", ").
Proof. repeat constructor; lia. Qed.

(** Whatever the strings in it, the text written for a value is in the
    ASCII range. *)
Lemma dumps_ascii : forall v : value, Forall (fun c => c < 0x80) (dumps v).
Proof.
  fix IH 1. intros [|s|items|members]; cbn [dumps].
  - repeat constructor; lia.
  - apply encode_basestring_ascii_ascii.
  - apply Forall_app. split; [repeat constructor; lia|].
    apply Forall_app. split; [|repeat constructor; lia].
    apply join_ascii; [apply lit_comma_ascii|].
    induction items as [|v items IHitems]; cbn [map]; constructor.
    + apply IH.
    + exact IHitems.
  - apply Forall_app. split; [repeat constructor; lia|].
    apply Forall_app. split; [|repeat constructor; lia].
    apply join_ascii; [apply lit_comma_ascii|].
    induction members as [|[k v] members IHmembers]; cbn [map]; constructor.
    + cbn [fst snd]. apply Forall_app. split; [apply encode_basestring_ascii_ascii|].
      apply Forall_app. split; [repeat constructor; lia | apply IH].
    + exact IHmembers.
Qed.

(** Text of the ASCII range is encoded character by character. *)
Lemma encode_ascii_bytes (s : str) :
  Forall (fun c => c < 0x80) s -> encode s = Ok (ascii_bytes s).
Proof.
  induction 1 as [|c s Hc _ IH].
  - reflexivity.
  - cbn [encode]. unfold utf8_encode_char.
    apply N.ltb_lt in Hc. rewrite Hc, IH. reflexivity.
Qed.

Lemma len_ascii_bytes (s : str) : len_bytes (ascii_bytes s) = len s.
Proof. unfold len_bytes, len, ascii_bytes. rewrite length_map. reflexivity. Qed.

(** ** The file marker in the text made for an unmatched path *)

Lemma contains_app (sub before s after : str) :
  contains sub s = true -> contains sub (before ++ s ++ after) = true.
Proof.
  rewrite !contains_iff. intros (pre & post & ->).
  exists (before ++ pre), (post ++ after).
  rewrite <- !app_assoc. reflexivity.
Qed.

Lemma escape_app (s t : str) :
  concat (map escape_char (s ++ t))
  = concat (map escape_char s) ++ concat (map escape_char t).
Proof. rewrite map_app, concat_app. reflexivity. Qed.

(** Escaping keeps an occurrence of the marker: its characters are plain. *)
Lemma contains_marker_escaped (s : str) :
  contains (lit "@file://") s = true ->
  contains (lit "@file://") (concat (map escape_char s)) = true.
Proof.
  rewrite !contains_iff. intros (pre & post & ->).
  exists (concat (map escape_char pre)), (concat (map escape_char post)).
  rewrite !escape_app. reflexivity.
Qed.

Lemma hex_digit_not_at (d : N) : d < 16 -> hex_digit d <> 0x40.
Proof. intros Hd. unfold hex_digit. destruct (N.ltb_spec d 10); lia. Qed.

Lemma u_escape_no_at (n : N) : Forall (fun x => x <> 0x40) (u_escape n).
Proof.
  unfold u_escape, hex4. cbn [app].
  repeat constructor; try (apply hex_digit_not_at, nibble_bound); discriminate.
Qed.

(** A character is written as itself, or as a group that starts with a
    backslash and holds no [@]. *)
Lemma escape_char_shape (c : N) :
  escape_char c = [c] \/
  exists t, escape_char c = 0x5C :: t /\ Forall (fun x => x <> 0x40) (0x5C :: t).
Proof.
  unfold escape_char.
  repeat match goal with
         | |- context [if ?b then _ else _] => destruct b
         end;
    try (left; reflexivity);
    try (right; eexists; split; [reflexivity|]; repeat constructor; discriminate).
  - right. exists ([0x75] ++ hex4 c). split; [reflexivity|].
    apply (u_escape_no_at c).
  - right. eexists. split; [reflexivity|].
    apply (Forall_app _ (u_escape _) (u_escape _)). split; apply u_escape_no_at.
Qed.

(** Characters other than the first of [sub] cannot begin an occurrence. *)
Lemma contains_skip (m0 : N) (m before rest : str) :
  Forall (fun x => x <> m0) before ->
  contains (m0 :: m) (before ++ rest) = contains (m0 :: m) rest.
Proof.
  induction 1 as [|a before Ha _ IH].
  - reflexivity.
  - cbn [app contains startswith].
    apply N.eqb_neq in Ha. rewrite N.eqb_sym in Ha. rewrite Ha. exact IH.
Qed.

(** A word without backslash and without the first character of [after]
    that begins the escaped text followed by [after] begins the text. *)
Lemma startswith_escaped (a0 : N) (after : str) (m : str) :
  Forall (fun x => x <> 0x5C /\ x <> a0) m ->
  forall s,
    startswith (concat (map escape_char s) ++ a0 :: after) m = true ->
    startswith s m = true.
Proof.
  induction 1 as [|c m [Hbackslash Hafter] _ IH]; intros s Hstarts.
  - destruct s; reflexivity.
  - destruct s as [|p s].
    + cbn [map concat app startswith] in Hstarts.
      apply andb_true_iff in Hstarts as [Hc _]. apply N.eqb_eq in Hc. contradiction.
    + cbn [map concat] in Hstarts.
      destruct (escape_char_shape p) as [Hp | (t & Hp & _)]; rewrite Hp in Hstarts;
        cbn [app startswith] in Hstarts;
        apply andb_true_iff in Hstarts as [Hc Hrest]; apply N.eqb_eq in Hc.
      * cbn [startswith]. apply andb_true_iff. split.
        -- apply N.eqb_eq. exact Hc.
        -- apply IH. exact Hrest.
      * contradiction.
Qed.

Lemma contains_escaped_back (a0 : N) (after : str) (m0 : N) (m : str) :
  m0 = 0x40 ->
  Forall (fun x => x <> 0x5C /\ x <> a0) (m0 :: m) ->
  contains (m0 :: m) (a0 :: after) = false ->
  forall s,
    contains (m0 :: m) (concat (map escape_char s) ++ a0 :: after) = true ->
    contains (m0 :: m) s = true.
Proof.
  intros -> Hword Hafter. induction s as [|p s IH]; intros Hcontains.
  - cbn [map concat app] in Hcontains. congruence.
  - cbn [map concat] in Hcontains. rewrite <- app_assoc in Hcontains.
    destruct (escape_char_shape p) as [Hp | (t & Hp & Hno)]; rewrite Hp in Hcontains.
    + change ([p] ++ concat (map escape_char s) ++ a0 :: after)
        with (p :: (concat (map escape_char s) ++ a0 :: after)) in Hcontains.
      cbn [contains] in Hcontains. cbn [contains].
      apply orb_true_iff in Hcontains as [Hhere | Hlater];
        apply orb_true_iff; [left | right; exact (IH Hlater)].
      apply (startswith_escaped a0 after _ Hword (p :: s)).
      cbn [map concat]. rewrite Hp, <- app_assoc. exact Hhere.
    + rewrite (contains_skip 0x40 m (0x5C :: t) _ Hno) in Hcontains.
      cbn [contains]. apply orb_true_iff. right. exact (IH Hcontains).
Qed.

(** The text made for an unmatched path: a fixed beginning, the escaped
    path, a fixed end. *)
Lemma dumps_not_found_shape (path : str) :
  dumps (SimpleHandler.not_found_message path)
  = (lit "{" ++ encode_basestring_ascii (lit "message") ++ lit ": " ++ [0x22]
     ++ lit "path '")
    ++ concat (map escape_char path)
    ++ (lit "' not found" ++ [0x22] ++ lit "}").
Proof.
  unfold SimpleHandler.not_found_message.
  cbn [dumps map join fst snd]. unfold encode_basestring_ascii at 2.
  rewrite !escape_app.
  rewrite (escape_plain _ plain_lit_path), (escape_plain _ plain_lit_not_found).
  rewrite <- !app_assoc. reflexivity.
Qed.

(** The body made for an unmatched path is file-backed exactly when the
    path holds the marker. *)
Lemma not_found_body_is_file (path : str) :
  MockedResponseBody.is_file
    (MockedResponseBody.init (Some (dumps (SimpleHandler.not_found_message path))))
  = contains (lit "@file://") path.
Proof.
  rewrite init_is_file, dumps_not_found_shape.
  destruct (contains (lit "@file://") path) eqn:Hpath.
  - apply contains_app, contains_marker_escaped. exact Hpath.
  - apply not_true_is_false. intros Hbody.
    rewrite (contains_skip 0x40 (lit "file://")) in Hbody
      by (repeat constructor; discriminate).
    apply (contains_escaped_back 0x27 _ 0x40 (lit "file://")) in Hbody.
    + change (0x40 :: lit "file://") with (lit "@file://") in Hbody. congruence.
    + reflexivity.
    + repeat constructor; discriminate.
    + reflexivity.
Qed.

(** ** Unmatched paths *)

(** C8, as stated, fails: [GET /nope] against the empty configuration, sent
    with the one-byte body [0xff], is not answered 404: the decoding error
    of the recording step ends the request before the lookup. *)
Lemma C8_unmatched_path_with_undecodable_body :
  startswith (lit "/nope") (lit "/mocker") = false /\
  In (lit "GET") handled /\
  Configuration.get_response_map empty_configuration !! Some (lit "/nope") = None /\
  SimpleHandler.handle_one_request int_of_digits empty_configuration no_files
    (request_with_body (lit "GET") (lit "/nope") [xff]) []
  = ([], {| events := []; raised := Some UnicodeDecodeError |}).
Proof.
  repeat apply conj; try (vm_compute; reflexivity).
  cbn. auto.
Qed.

(** The JSON text escapes the path: for the four-character path made of a
    slash, [a], a double quote and [b], the body holds a backslash before
    the quote. *)
Example not_found_body_escapes_path :
  dumps (SimpleHandler.not_found_message [0x2F; 0x61; 0x22; 0x62])
  = lit "{" ++ quoted (lit "message") ++ lit ": "
    ++ quoted (lit "path '/a\" ++ [0x22] ++ lit "b' not found") ++ lit "}".
Proof. reflexivity. Qed.

(** C8, amended: for every request off the introspection path whose method
    is one of the five handled ones, whose body is absent or is read and
    decoded as UTF-8 without error (the length announced being at most the
    number of bytes sent), and whose exact path has no entry in the table of
    that method and does not hold [@file://], the dispatcher
    returns a response with status 404, the header
    [Content-Type: application/json], and an inline body that loads, for
    every file system, as the bytes of the JSON text that [json.dumps] gives
    for the object with the one key [message] and the value
    [path '<path>' not found], its length being the number of these bytes;
    this text is literally [{"message": "path '<path>' not found"}] whenever
    the path is made of printable ASCII characters other than the double
    quote and the backslash, as for [GET /nope] against the empty
    configuration. *)
Theorem C8_unmatched_path_is_answered_404 (int : str -> option Z)
    (configuration : Configuration.t) (self : Request.t) (method : str)
    (REGISTRY : CallsRegistry.t) (body : option str) :
  startswith (Request.path self) (lit "/mocker") = false ->
  In method handled ->
  (forall get, SimpleHandler.response_map configuration method = Some get ->
               get (Request.path self) = None) ->
  recordable int self body ->
  contains (lit "@file://") (Request.path self) = false ->
  exists r : MockedResponse,
    snd (SimpleHandler.retrieve_response int configuration self
           (Request.path self) method REGISTRY) = Ok (Mocked r) /\
    Response.response_code r = 404%Z /\
    Response.headers r = [[(lit "Content-Type", lit "application/json")]] /\
    MockedResponseBody.is_file (Response.body r) = false /\
    MockedResponseBody.content (Response.body r)
    = dumps (JDict [(lit "message",
                     JStr (lit "path '" ++ Request.path self ++ lit "' not found"))]) /\
    (forall fs : FileSystem,
       MockedResponseBody.load fs (Response.body r)
       = Ok (LoadedBytes
               (ascii_bytes
                  (dumps (JDict [(lit "message",
                                  JStr (lit "path '" ++ Request.path self
                                        ++ lit "' not found"))])))) /\
       MockedResponseBody.__len__ fs (Response.body r)
       = len_bytes
           (ascii_bytes
              (dumps (JDict [(lit "message",
                              JStr (lit "path '" ++ Request.path self
                                    ++ lit "' not found"))])))) /\
    (Forall (fun c => plain c = true) (Request.path self) ->
     MockedResponseBody.content (Response.body r)
     = lit "{" ++ quoted (lit "message") ++ lit ": "
       ++ quoted (lit "path '" ++ Request.path self ++ lit "' not found")
       ++ lit "}").
Proof.
  intros Hpath Hmethod Hnone Hbody Hmarker.
  apply (response_map_handled configuration) in Hmethod as [get Hget].
  rewrite (retrieve_response_mock int configuration self _ method REGISTRY body Hpath Hbody).
  rewrite (lookup_response_not_found configuration _ method get Hget (Hnone get Hget)).
  eexists. split; [reflexivity|].
  split; [reflexivity|]. split; [reflexivity|].
  cbn [Response.body Response.init wrap MockedResponseBody_wrapper].
  assert (Hinline : MockedResponseBody.is_file
                      (MockedResponseBody.init
                         (Some (dumps (SimpleHandler.not_found_message
                                         (Request.path self))))) = false)
    by (rewrite not_found_body_is_file; exact Hmarker).
  split; [exact Hinline|].
  rewrite init_content. split; [reflexivity|].
  split; [|apply dumps_not_found_message].
  intros fs. split.
  - unfold MockedResponseBody.load. rewrite Hinline, init_content.
    fold (SimpleHandler.not_found_message (Request.path self)).
    rewrite (encode_ascii_bytes _ (dumps_ascii _)). reflexivity.
  - rewrite (inline_len fs _ Hinline), init_content, len_ascii_bytes.
    reflexivity.
Qed.

Lemma C8_unmatched_path_is_answered_404_witness :
  exists r : MockedResponse,
    snd (SimpleHandler.retrieve_response int_of_digits empty_configuration
           (bare_request (lit "GET") (lit "/nope"))
           (lit "/nope") (lit "GET") []) = Ok (Mocked r) /\
    Response.response_code r = 404%Z /\
    Response.headers r = [[(lit "Content-Type", lit "application/json")]] /\
    MockedResponseBody.is_file (Response.body r) = false /\
    MockedResponseBody.content (Response.body r)
    = dumps (JDict [(lit "message", JStr (lit "path '/nope' not found"))]) /\
    (forall fs : FileSystem,
       MockedResponseBody.load fs (Response.body r)
       = Ok (LoadedBytes
               (ascii_bytes
                  (dumps (JDict [(lit "message",
                                  JStr (lit "path '/nope' not found"))])))) /\
       MockedResponseBody.__len__ fs (Response.body r)
       = len_bytes
           (ascii_bytes
              (dumps (JDict [(lit "message",
                              JStr (lit "path '/nope' not found"))])))) /\
    (Forall (fun c => plain c = true) (lit "/nope") ->
     MockedResponseBody.content (Response.body r)
     = lit "{" ++ quoted (lit "message") ++ lit ": "
       ++ quoted (lit "path '/nope' not found") ++ lit "}").
Proof.
  apply (C8_unmatched_path_is_answered_404 int_of_digits empty_configuration
           (bare_request (lit "GET") (lit "/nope")) (lit "GET") [] None).
  - reflexivity.
  - right. left. reflexivity.
  - intros get Hget. injection Hget as <-. reflexivity.
  - split; [buffered_here|]. exists None. split; reflexivity.
  - reflexivity.
Defined.

(** [GET /nope] against the empty configuration, as sent. *)
Example get_nope_on_the_wire :
  snd (SimpleHandler.handle_one_request int_of_digits empty_configuration no_files
         (bare_request (lit "GET") (lit "/nope")) [])
  = {| events :=
         [Sleep (PyInt 0); SendResponse 404;
          SendHeader (lit "Content-Type") (lit "application/json");
          SendHeader (lit "Content-length") (lit "37");
          EndHeaders;
          Write (ascii_bytes
                   (lit "{" ++ quoted (lit "message") ++ lit ": "
                    ++ quoted (lit "path '/nope' not found") ++ lit "}"))];
       raised := None |}.
Proof. vm_compute. reflexivity. Qed.

(** ** Other methods on the introspection path *)

(** C9, as stated, fails: the handler has no [do_PATCH], so [PATCH /mocker]
    never reaches [retrieve_response]; the transport answers it 501. *)
Lemma C9_patch_is_answered_by_the_transport :
  startswith (lit "/mocker") (lit "/mocker") = true /\
  lit "PATCH" <> lit "GET" /\
  lit "PATCH" <> lit "DELETE" /\
  SimpleHandler.handle_one_request int_of_digits empty_configuration no_files
    (bare_request (lit "PATCH") (lit "/mocker")) []
  = ([], {| events := [SendError 501]; raised := None |}).
Proof. repeat apply conj; try discriminate; vm_compute; reflexivity. Qed.

(** C9, amended: for every request whose path starts with [/mocker] and
    whose method is [HEAD], [POST] or [PUT], the handled methods other than
    [GET] and [DELETE], the server sends status 500 and the body
    [Unknown method], and leaves the registry as it is; the dispatcher gives
    that response for every method other than [GET] and [DELETE] it is
    called with. *)
Theorem C9_other_methods_on_the_introspection_path (int : str -> option Z)
    (configuration : Configuration.t) (fs : FileSystem) (self : Request.t)
    (REGISTRY : CallsRegistry.t) :
  startswith (Request.path self) (lit "/mocker") = true ->
  (In (Request.command self) [lit "HEAD"; lit "POST"; lit "PUT"] ->
   SimpleHandler.handle_one_request int configuration fs self REGISTRY
   = (REGISTRY,
      {| events := [Sleep (PyInt 0); SendResponse 500;
                    SendHeader (lit "Content-length") (lit "14");
                    EndHeaders; Write (ascii_bytes (lit "Unknown method"))];
         raised := None |})) /\
  (forall method, method <> lit "GET" -> method <> lit "DELETE" ->
   exists r : MockerResponse,
     SimpleHandler.retrieve_response int configuration self
       (Request.path self) method REGISTRY = (REGISTRY, Ok (Mocker r)) /\
     Response.response_code r = 500%Z /\
     MockerResponseBody.body (Response.body r) = lit "Unknown method").
Proof.
  intros Hpath. split.
  - intros Hcommand.
    rewrite handle_one_request_handled
      by (unfold handled; cbn [In] in *; intuition auto).
    unfold SimpleHandler.respond.
    rewrite retrieve_response_unknown_method;
      [reflexivity | exact Hpath | |];
      cbn [In] in Hcommand; intros Heq; rewrite Heq in Hcommand;
      intuition discriminate.
  - intros method Hget Hdelete.
    rewrite (retrieve_response_unknown_method int configuration self _ method
               REGISTRY Hpath Hget Hdelete).
    eexists. repeat split.
Qed.

Lemma C9_other_methods_on_the_introspection_path_witness :
  SimpleHandler.handle_one_request int_of_digits empty_configuration no_files
    (bare_request (lit "PUT") (lit "/mocker/calls")) []
  = ([],
     {| events := [Sleep (PyInt 0); SendResponse 500;
                   SendHeader (lit "Content-length") (lit "14");
                   EndHeaders; Write (ascii_bytes (lit "Unknown method"))];
        raised := None |}).
Proof.
  destruct (C9_other_methods_on_the_introspection_path int_of_digits
              empty_configuration no_files
              (bare_request (lit "PUT") (lit "/mocker/calls")) [] eq_refl)
    as [Hserver _].
  apply Hserver. right. right. left. reflexivity.
Defined.

(** ** The tables at work *)

Lemma init_without_responses (upper : str -> str) :
  Configuration.init upper (lit "0.0.0.0") 8000%Z [] = Ok empty_configuration.
Proof. reflexivity. Qed.

(** A declaration without a method cannot be registered: [None] has no
    [upper]. *)
Lemma add_response_without_method (upper : str -> str) (self : Configuration.t)
    (response : Configuration.declaration) :
  Configuration.d_method response = None ->
  Configuration.add_response upper self response = Raise AttributeError.
Proof. intros H. unfold Configuration.add_response. rewrite H. reflexivity. Qed.

(** A configured path is served as declared; the same path with a slash or
    a query string added is not found. *)
Example configured_path_is_served :
  match Configuration.init ascii_upper (lit "localhost") 8000%Z [hello_declaration] with
  | Ok configuration =>
      snd (SimpleHandler.handle_one_request int_of_digits configuration no_files
             (bare_request (lit "GET") (lit "/hello")) [])
      = {| events := [Sleep (PyInt 0); SendResponse 201;
                      SendHeader (lit "X-Kind") (lit "greeting");
                      SendHeader (lit "Content-length") (lit "2");
                      EndHeaders; Write (blit "hi")];
           raised := None |} /\
      Response.response_code
        (SimpleHandler.lookup_response configuration (lit "/hello/") (lit "GET"))
      = 404%Z /\
      Response.response_code
        (SimpleHandler.lookup_response configuration (lit "/hello?x=1") (lit "GET"))
      = 404%Z /\
      Response.response_code
        (SimpleHandler.lookup_response configuration (lit "/hello") (lit "POST"))
      = 404%Z
  | Raise _ => False
  end.
Proof. vm_compute. repeat split. Qed.

(** The dispatcher called with a method that has no table answers 500 with
    the text of the error. *)
Example unknown_method_off_the_introspection_path :
  Response.response_code
    (SimpleHandler.lookup_response empty_configuration (lit "/x") (lit "PATCH"))
  = 500%Z /\
  MockedResponseBody.content
    (Response.body
       (SimpleHandler.lookup_response empty_configuration (lit "/x") (lit "PATCH")))
  = lit "{" ++ quoted (lit "message") ++ lit ": "
    ++ quoted (lit "An error happened with path '/x': 'NoneType' object is not callable")
    ++ lit "}".
Proof. split; reflexivity. Qed.

(** [GET] on the introspection path answers 200 with the JSON text of the
    registry and leaves the registry as it is. *)
Lemma retrieve_response_list (int : str -> option Z)
    (configuration : Configuration.t) (self : Request.t) (path : str)
    (REGISTRY : CallsRegistry.t) :
  startswith path (lit "/mocker") = true ->
  SimpleHandler.retrieve_response int configuration self path (lit "GET") REGISTRY
  = (REGISTRY,
     Ok (Mocker (Response.init (Some (lit "GET")) (Some path) (Some 200%Z)
                   (Some [[(lit "Content-Type", lit "application/json")]])
                   (Some (dumps (JList REGISTRY))) None))).
Proof.
  intros Hpath. unfold SimpleHandler.retrieve_response. rewrite Hpath.
  reflexivity.
Qed.

(** [DELETE] on the introspection path answers 204 and empties the
    registry. *)
Lemma retrieve_response_clear (int : str -> option Z)
    (configuration : Configuration.t) (self : Request.t) (path : str)
    (REGISTRY : CallsRegistry.t) :
  startswith path (lit "/mocker") = true ->
  SimpleHandler.retrieve_response int configuration self path (lit "DELETE") REGISTRY
  = ([],
     Ok (Mocker (Response.init (Some (lit "DELETE")) (Some path) (Some 204%Z)
                   (Some []) (Some []) None))).
Proof.
  intros Hpath. unfold SimpleHandler.retrieve_response. rewrite Hpath.
  reflexivity.
Qed.

(** * Further properties of the code *)

(** ** The introspection path *)

Lemma handle_get (int : str -> option Z) (configuration : Configuration.t)
    (fs : FileSystem) (self : Request.t) (REGISTRY : CallsRegistry.t) :
  Request.command self = lit "GET" ->
  SimpleHandler.handle_one_request int configuration fs self REGISTRY
  = SimpleHandler.respond int configuration (lit "GET") fs self REGISTRY.
Proof.
  intros Hcommand. rewrite handle_one_request_handled, Hcommand; [reflexivity|].
  rewrite Hcommand. unfold handled. cbn [In]. auto.
Qed.

Lemma handle_delete (int : str -> option Z) (configuration : Configuration.t)
    (fs : FileSystem) (self : Request.t) (REGISTRY : CallsRegistry.t) :
  Request.command self = lit "DELETE" ->
  SimpleHandler.handle_one_request int configuration fs self REGISTRY
  = SimpleHandler.respond int configuration (lit "DELETE") fs self REGISTRY.
Proof.
  intros Hcommand. rewrite handle_one_request_handled, Hcommand; [reflexivity|].
  rewrite Hcommand. unfold handled. cbn [In]. auto 6.
Qed.

(** Headers that can be sent are all sent, in their order. *)
Lemma send_headers_complete (headers : list header) :
  Forall sendable headers ->
  SimpleHandler.send_headers headers
  = {| events := header_events headers; raised := None |}.
Proof.
  induction 1 as [|h headers Hh _ IH].
  - reflexivity.
  - destruct h as [|[keyword v] h]; [contradiction|].
    destruct Hh as [Hkeyword Hvalue].
    cbn [SimpleHandler.send_headers header_events].
    unfold SimpleHandler.send_header. rewrite Hkeyword, Hvalue, IH. reflexivity.
Qed.

Lemma latin1_digits (u : Decimal.uint) : SimpleHandler.latin1 (digits u) = true.
Proof. induction u; cbn; try reflexivity; exact IHu. Qed.

Lemma latin1_str_of_int (z : Z) : SimpleHandler.latin1 (str_of_int z) = true.
Proof.
  unfold str_of_int. destruct (Z.to_int z) as [u|u].
  - apply latin1_digits.
  - cbn. apply latin1_digits.
Qed.

(** A length that is not negative is announced as it is. *)
Lemma send_content_length (n : Z) :
  (0 <= n)%Z ->
  match SimpleHandler.builtin_len n with
  | Ok length => SimpleHandler.send_header (lit "Content-length") (str_of_int length)
  | Raise e => fail e
  end
  = emit (SendHeader (lit "Content-length") (str_of_int n)).
Proof.
  intros Hn. unfold SimpleHandler.builtin_len.
  destruct (Z.ltb_spec n 0) as [Hneg|_]; [lia|].
  unfold SimpleHandler.send_header. rewrite latin1_str_of_int. reflexivity.
Qed.

Lemma len_nonnegative (s : str) : (0 <= len s)%Z.
Proof. unfold len. lia. Qed.

Lemma len_bytes_nonnegative (b : bytes) : (0 <= len_bytes b)%Z.
Proof. unfold len_bytes. lia. Qed.

(** What is sent for a response of the introspection path whose body is
    text of the ASCII range and whose headers are the JSON ones or none. *)
Lemma send_mocker_ascii (fs : FileSystem) (path method p : str) (code : Z)
    (headers : list header) (d : str) :
  code <> 0%Z ->
  Forall (fun c => c < 0x80) d ->
  Forall sendable headers ->
  SimpleHandler.send fs path
    (Response.init (B := MockerResponseBody.t)
       (Some method) (Some p) (Some code) (Some headers) (Some d) None)
  = {| events := [Sleep (PyInt 0); SendResponse code]
                 ++ header_events headers
                 ++ [SendHeader (lit "Content-length")
                       (str_of_int (len_bytes (ascii_bytes d)));
                     EndHeaders; Write (ascii_bytes d)];
       raised := None |}.
Proof.
  intros Hcode Hd Hheaders. unfold SimpleHandler.send.
  assert (Hbody : MockerResponseBody.body
                    (Response.body
                       (Response.init (B := MockerResponseBody.t)
                          (Some method) (Some p) (Some code) (Some headers)
                          (Some d) None)) = d)
    by (destruct d; reflexivity).
  assert (Hcode' : Response.response_code
                     (Response.init (B := MockerResponseBody.t)
                        (Some method) (Some p) (Some code) (Some headers)
                        (Some d) None) = code).
  { cbn [Response.response_code Response.init]. unfold truthy_int.
    destruct (Z.eqb_spec code 0); [contradiction|reflexivity]. }
  assert (Hheaders' : Response.headers
                        (Response.init (B := MockerResponseBody.t)
                           (Some method) (Some p) (Some code) (Some headers)
                           (Some d) None) = headers)
    by (destruct headers; reflexivity).
  rewrite Hcode', Hheaders'.
  cbn [body_len body_load MockerResponseBody_wrapper].
  unfold MockerResponseBody.__len__, MockerResponseBody.load.
  rewrite Hbody, (encode_ascii_bytes d Hd), <- len_ascii_bytes.
  rewrite (send_content_length _ (len_bytes_nonnegative _)).
  cbn [bind SimpleHandler.write Response.delay Response.init].
  rewrite (send_headers_complete headers Hheaders). reflexivity.
Qed.

Lemma handle_introspection_get (int : str -> option Z)
    (configuration : Configuration.t) (fs : FileSystem) (self : Request.t)
    (REGISTRY : CallsRegistry.t) :
  startswith (Request.path self) (lit "/mocker") = true ->
  Request.command self = lit "GET" ->
  SimpleHandler.handle_one_request int configuration fs self REGISTRY
  = (REGISTRY,
     {| events :=
          [Sleep (PyInt 0); SendResponse 200;
           SendHeader (lit "Content-Type") (lit "application/json");
           SendHeader (lit "Content-length")
             (str_of_int (len_bytes (ascii_bytes (dumps (JList REGISTRY)))));
           EndHeaders;
           Write (ascii_bytes (dumps (JList REGISTRY)))];
        raised := None |}).
Proof.
  intros Hpath Hcommand.
  rewrite handle_get by exact Hcommand. unfold SimpleHandler.respond.
  rewrite retrieve_response_list by exact Hpath.
  cbn [SimpleHandler.send_any].
  rewrite send_mocker_ascii; [reflexivity | discriminate | apply dumps_ascii |].
  constructor; [split; reflexivity | constructor].
Qed.

(** X1: [GET] on the introspection path is answered whole, whatever the
    registry holds: status 200, the JSON content type, a [Content-length]
    that is the number of bytes written, and the JSON text of the registry,
    all of it in the ASCII range; the registry is left as it is. *)
Theorem introspection_list_is_sent_whole (int : str -> option Z)
    (configuration : Configuration.t) (fs : FileSystem) (self : Request.t)
    (REGISTRY : CallsRegistry.t) :
  startswith (Request.path self) (lit "/mocker") = true ->
  Request.command self = lit "GET" ->
  SimpleHandler.handle_one_request int configuration fs self REGISTRY
  = (REGISTRY,
     {| events :=
          [Sleep (PyInt 0); SendResponse 200;
           SendHeader (lit "Content-Type") (lit "application/json");
           SendHeader (lit "Content-length")
             (str_of_int (len_bytes (ascii_bytes (dumps (JList REGISTRY)))));
           EndHeaders;
           Write (ascii_bytes (dumps (JList REGISTRY)))];
        raised := None |}) /\
  Forall (fun c => c < 0x80) (dumps (JList REGISTRY)).
Proof.
  intros Hpath Hcommand. split; [|apply dumps_ascii].
  apply handle_introspection_get; assumption.
Qed.

Lemma introspection_list_is_sent_whole_witness :
  snd (SimpleHandler.handle_one_request int_of_digits empty_configuration no_files
         (bare_request (lit "GET") (lit "/mocker"))
         [CallsRegistry.entry (lit "/a") (lit "GET") (Some [0xE9])])
  = {| events :=
         [Sleep (PyInt 0); SendResponse 200;
          SendHeader (lit "Content-Type") (lit "application/json");
          SendHeader (lit "Content-length") (lit "51");
          EndHeaders;
          Write (ascii_bytes
                   (lit "[{" ++ quoted (lit "method") ++ lit ": " ++ quoted (lit "/a")
                    ++ lit ", " ++ quoted (lit "path") ++ lit ": " ++ quoted (lit "GET")
                    ++ lit ", " ++ quoted (lit "body") ++ lit ": "
                    ++ quoted (lit "\u00e9") ++ lit "}]"))];
       raised := None |}.
Proof.
  destruct (introspection_list_is_sent_whole int_of_digits empty_configuration
              no_files (bare_request (lit "GET") (lit "/mocker"))
              [CallsRegistry.entry (lit "/a") (lit "GET") (Some [0xE9])]
              eq_refl eq_refl) as [Hsent _].
  rewrite Hsent. reflexivity.
Defined.

(** X2: [DELETE] on the introspection path empties the registry whatever it
    held, and a [GET] on the introspection path that follows is answered
    with the two characters of the empty JSON list. *)
Theorem clear_then_list (int : str -> option Z)
    (configuration : Configuration.t) (fs1 fs2 : FileSystem)
    (self1 self2 : Request.t) (REGISTRY : CallsRegistry.t) :
  startswith (Request.path self1) (lit "/mocker") = true ->
  Request.command self1 = lit "DELETE" ->
  startswith (Request.path self2) (lit "/mocker") = true ->
  Request.command self2 = lit "GET" ->
  SimpleHandler.serve int configuration [(fs1, self1); (fs2, self2)] REGISTRY
  = ([],
     [ {| events := [Sleep (PyInt 0); SendResponse 204;
                     SendHeader (lit "Content-length") (lit "0");
                     EndHeaders; Write []];
          raised := None |};
       {| events := [Sleep (PyInt 0); SendResponse 200;
                     SendHeader (lit "Content-Type") (lit "application/json");
                     SendHeader (lit "Content-length") (lit "2");
                     EndHeaders; Write (blit "[]")];
          raised := None |} ]).
Proof.
  intros Hpath1 Hdelete Hpath2 Hget. cbn [SimpleHandler.serve].
  rewrite handle_delete by exact Hdelete. unfold SimpleHandler.respond at 1.
  rewrite retrieve_response_clear by exact Hpath1.
  rewrite (handle_introspection_get int configuration fs2 self2 [] Hpath2 Hget).
  reflexivity.
Qed.

Lemma clear_then_list_witness :
  fst (SimpleHandler.serve int_of_digits empty_configuration
         [(no_files, bare_request (lit "DELETE") (lit "/mocker"));
          (no_files, bare_request (lit "GET") (lit "/mocker/calls"))]
         [CallsRegistry.entry (lit "/a") (lit "GET") None])
  = [].
Proof.
  rewrite (clear_then_list int_of_digits empty_configuration no_files no_files
             (bare_request (lit "DELETE") (lit "/mocker"))
             (bare_request (lit "GET") (lit "/mocker/calls"))
             [CallsRegistry.entry (lit "/a") (lit "GET") None]
             eq_refl eq_refl eq_refl eq_refl).
  reflexivity.
Defined.

(** X3: a request recorded after a [DELETE] on the introspection path is the
    only entry of the registry. *)
Theorem record_after_clear (int : str -> option Z)
    (configuration : Configuration.t) (fs1 fs2 : FileSystem)
    (self1 self2 : Request.t) (REGISTRY : CallsRegistry.t) (body : option str) :
  startswith (Request.path self1) (lit "/mocker") = true ->
  Request.command self1 = lit "DELETE" ->
  In (Request.command self2) handled ->
  startswith (Request.path self2) (lit "/mocker") = false ->
  recordable int self2 body ->
  fst (SimpleHandler.serve int configuration [(fs1, self1); (fs2, self2)] REGISTRY)
  = [CallsRegistry.entry (Request.path self2) (Request.command self2) body].
Proof.
  intros Hpath1 Hdelete Hcommand Hpath2 Hbody. cbn [SimpleHandler.serve].
  rewrite handle_delete by exact Hdelete. unfold SimpleHandler.respond at 1.
  rewrite retrieve_response_clear by exact Hpath1.
  pose proof (handle_one_request_records int configuration fs2 self2 [] body
                Hcommand Hpath2 Hbody) as Hone.
  destruct (SimpleHandler.handle_one_request int configuration fs2 self2 [])
    as [REGISTRY' o].
  exact Hone.
Qed.

Lemma record_after_clear_witness :
  fst (SimpleHandler.serve int_of_digits empty_configuration
         [(no_files, bare_request (lit "DELETE") (lit "/mocker"));
          (no_files, request_with_body (lit "POST") (lit "/orders") (blit "hi"))]
         [CallsRegistry.entry (lit "/a") (lit "GET") None])
  = [CallsRegistry.entry (lit "/orders") (lit "POST") (Some (lit "hi"))].
Proof.
  apply (record_after_clear int_of_digits empty_configuration no_files no_files
           (bare_request (lit "DELETE") (lit "/mocker"))
           (request_with_body (lit "POST") (lit "/orders") (blit "hi"))
           [CallsRegistry.entry (lit "/a") (lit "GET") None]
           (Some (lit "hi"))).
  - reflexivity.
  - reflexivity.
  - right. right. left. reflexivity.
  - reflexivity.
  - split; [buffered_here|]. exists (Some (blit "hi")). split; [reflexivity|].
    exists (lit "hi"). split; reflexivity.
Defined.

(** X4: a path that starts with [/mocker] is never looked up in the tables:
    whatever is configured and whatever the method, the dispatcher answers
    with a response of the introspection class whose status is 200, 204 or
    500, and reads no body. *)
Theorem introspection_shadows_tables (int : str -> option Z)
    (configuration : Configuration.t) (self : Request.t) (path method : str)
    (REGISTRY : CallsRegistry.t) :
  startswith path (lit "/mocker") = true ->
  exists r : MockerResponse,
    snd (SimpleHandler.retrieve_response int configuration self path method REGISTRY)
    = Ok (Mocker r) /\
    (Response.response_code r = 200%Z \/ Response.response_code r = 204%Z \/
     Response.response_code r = 500%Z).
Proof.
  intros Hpath. unfold SimpleHandler.retrieve_response. rewrite Hpath.
  repeat case_decide; eexists; (split; [reflexivity|]); cbn; auto.
Qed.

Lemma introspection_shadows_tables_witness :
  match Configuration.init ascii_upper (lit "localhost") 8000%Z [mockery_declaration] with
  | Ok configuration =>
      table configuration (lit "GET") !! Some (lit "/mockery")
      = Some (declared mockery_declaration) /\
      exists r : MockerResponse,
        snd (SimpleHandler.retrieve_response int_of_digits configuration
               (bare_request (lit "GET") (lit "/mockery"))
               (lit "/mockery") (lit "GET") [])
        = Ok (Mocker r) /\
        (Response.response_code r = 200%Z \/ Response.response_code r = 204%Z \/
         Response.response_code r = 500%Z)
  | Raise _ => False
  end.
Proof.
  destruct (Configuration.init ascii_upper (lit "localhost") 8000%Z [mockery_declaration])
    as [configuration|e] eqn:Hinit; [|discriminate].
  split.
  - injection Hinit as <-. vm_compute. reflexivity.
  - apply (introspection_shadows_tables int_of_digits configuration
             (bare_request (lit "GET") (lit "/mockery"))
             (lit "/mockery") (lit "GET") []).
    reflexivity.
Defined.

(** ** The registry over a run of requests *)

Lemma add_outcome (self : CallsRegistry.t) (method path : str)
    (body : option bytes) :
  (exists text, decoded body text /\
     CallsRegistry.add self method path body
     = Ok (self ++ [CallsRegistry.entry method path text])) \/
  (CallsRegistry.add self method path body = Raise UnicodeDecodeError /\
   exists b, body = Some b /\ decode b = Raise UnicodeDecodeError).
Proof.
  destruct body as [b|].
  - destruct (decode b) as [s|e] eqn:Hdec.
    + left. exists (Some s). split; [exists s; auto|].
      unfold CallsRegistry.add. rewrite Hdec. reflexivity.
    + pose proof (decode_raises_decode_error (length b) b e (le_n _) Hdec) as ->.
      right. split; [|eauto].
      unfold CallsRegistry.add. rewrite Hdec. reflexivity.
  - left. exists None. split; reflexivity.
Qed.

(** X5: [add] either appends one entry, holding the decoded body or [None],
    behind the entries already there, or raises a decoding error; it raises
    exactly when a body is given whose bytes are not UTF-8. *)
Theorem add_appends_or_raises (self : CallsRegistry.t) (method path : str)
    (body : option bytes) :
  (exists text, decoded body text /\
     CallsRegistry.add self method path body
     = Ok (self ++ [CallsRegistry.entry method path text])) \/
  (CallsRegistry.add self method path body = Raise UnicodeDecodeError /\
   exists b, body = Some b /\ decode b = Raise UnicodeDecodeError).
Proof. apply add_outcome. Qed.

Lemma retrieve_response_registry (int : str -> option Z)
    (configuration : Configuration.t) (self : Request.t) (path method : str)
    (REGISTRY : CallsRegistry.t) :
  fst (SimpleHandler.retrieve_response int configuration self path method REGISTRY)
  = REGISTRY \/
  fst (SimpleHandler.retrieve_response int configuration self path method REGISTRY)
  = [] \/
  exists body,
    fst (SimpleHandler.retrieve_response int configuration self path method REGISTRY)
    = REGISTRY ++ [CallsRegistry.entry path method body].
Proof.
  unfold SimpleHandler.retrieve_response.
  destruct (startswith path (lit "/mocker")).
  - repeat case_decide; cbn [fst CallsRegistry.clear]; auto.
  - destruct (SimpleHandler.read_content int self) as [content|e]; [|auto].
    destruct (add_outcome REGISTRY path method content)
      as [(text & _ & ->) | [-> _]]; cbn [fst]; eauto.
Qed.

Lemma handle_one_request_registry (int : str -> option Z)
    (configuration : Configuration.t) (fs : FileSystem) (self : Request.t)
    (REGISTRY : CallsRegistry.t) :
  fst (SimpleHandler.handle_one_request int configuration fs self REGISTRY)
  = REGISTRY \/
  fst (SimpleHandler.handle_one_request int configuration fs self REGISTRY)
  = [] \/
  exists method body,
    fst (SimpleHandler.handle_one_request int configuration fs self REGISTRY)
    = REGISTRY ++ [CallsRegistry.entry (Request.path self) method body].
Proof.
  assert (Hrespond : forall method,
    fst (SimpleHandler.respond int configuration method fs self REGISTRY)
    = fst (SimpleHandler.retrieve_response int configuration self
             (Request.path self) method REGISTRY)).
  { intros method. unfold SimpleHandler.respond.
    destruct (SimpleHandler.retrieve_response int configuration self
                (Request.path self) method REGISTRY) as [REGISTRY' [r|e]];
      reflexivity. }
  unfold SimpleHandler.handle_one_request, SimpleHandler.do_HEAD,
    SimpleHandler.do_GET, SimpleHandler.do_POST, SimpleHandler.do_DELETE,
    SimpleHandler.do_PUT.
  repeat case_decide; try (left; reflexivity); rewrite Hrespond;
    match goal with
    | |- context [SimpleHandler.retrieve_response _ _ _ _ ?m _] =>
        destruct (retrieve_response_registry int configuration self
                    (Request.path self) m REGISTRY) as [H' | [H' | [body H']]];
        rewrite H'; eauto
    end.
Qed.

(** X6: whatever the requests of a run are, well-formed or not, handled or
    not, the registry only ever holds dicts of the shape [add] appends: one
    request leaves the registry as it was, empties it, or puts one such
    dict behind the others. *)
Theorem serve_keeps_entries (int : str -> option Z)
    (configuration : Configuration.t)
    (requests : list (FileSystem * Request.t)) (REGISTRY : CallsRegistry.t) :
  Forall is_entry REGISTRY ->
  Forall is_entry (fst (SimpleHandler.serve int configuration requests REGISTRY)) /\
  (length (fst (SimpleHandler.serve int configuration requests REGISTRY))
   <= length REGISTRY + length requests)%nat.
Proof.
  revert REGISTRY. induction requests as [|[fs self] requests IH];
    intros REGISTRY Hentries.
  - cbn. split; [exact Hentries | lia].
  - cbn [SimpleHandler.serve].
    pose proof (handle_one_request_registry int configuration fs self REGISTRY)
      as Hone.
    destruct (SimpleHandler.handle_one_request int configuration fs self REGISTRY)
      as [REGISTRY1 o]. cbn [fst] in Hone.
    assert (Hnext : Forall is_entry REGISTRY1 /\
                    (length REGISTRY1 <= S (length REGISTRY))%nat).
    { destruct Hone as [-> | [-> | (method & body & ->)]].
      - split; [exact Hentries | lia].
      - split; [constructor | cbn; lia].
      - split.
        + apply Forall_app. split; [exact Hentries|].
          constructor; [|constructor]. exists (Request.path self), method, body.
          reflexivity.
        + rewrite length_app. cbn [length]. lia. }
    destruct Hnext as [Hentries1 Hlength1].
    specialize (IH REGISTRY1 Hentries1).
    destruct (SimpleHandler.serve int configuration requests REGISTRY1)
      as [REGISTRY2 os].
    cbn [fst length] in *. destruct IH as [IHentries IHlength].
    split; [exact IHentries | lia].
Qed.

Lemma serve_keeps_entries_witness :
  Forall is_entry
    (fst (SimpleHandler.serve int_of_digits empty_configuration
            [(no_files, request_with_body (lit "POST") (lit "/x") [xff]);
             (no_files, bare_request (lit "PATCH") (lit "/y"));
             (no_files, bare_request (lit "GET") (lit "/a"))]
            [])).
Proof.
  apply (serve_keeps_entries int_of_digits empty_configuration
           [(no_files, request_with_body (lit "POST") (lit "/x") [xff]);
            (no_files, bare_request (lit "PATCH") (lit "/y"));
            (no_files, bare_request (lit "GET") (lit "/a"))]
           []).
  constructor.
Defined.

(** X7: after a run of handled requests off the introspection path whose
    bodies can be recorded, the registry holds one more entry per request,
    in arrival order behind the entries it had; each entry holds the decoded
    body of its request, the request's path under the key [method] and its
    command under the key [path]. *)
Theorem serve_appends_in_arrival_order (int : str -> option Z)
    (configuration : Configuration.t)
    (requests : list (FileSystem * Request.t)) (bodies : list (option str))
    (REGISTRY : CallsRegistry.t) :
  Forall2 (fun request body =>
             In (Request.command (snd request)) handled /\
             startswith (Request.path (snd request)) (lit "/mocker") = false /\
             recordable int (snd request) body)
          requests bodies ->
  fst (SimpleHandler.serve int configuration requests REGISTRY)
  = REGISTRY
    ++ zip_with (fun request body =>
                   JDict [(lit "method", JStr (Request.path (snd request)));
                          (lit "path", JStr (Request.command (snd request)));
                          (lit "body", match body with
                                       | Some s => JStr s
                                       | None => JNone
                                       end)])
         requests bodies /\
  length (fst (SimpleHandler.serve int configuration requests REGISTRY))
  = (length REGISTRY + length requests)%nat.
Proof.
  intros Hall.
  rewrite (serve_records int configuration requests bodies REGISTRY Hall).
  split; [reflexivity|].
  rewrite length_app, length_zip_with.
  apply Forall2_length in Hall. lia.
Qed.

Lemma serve_appends_in_arrival_order_witness :
  fst (SimpleHandler.serve int_of_digits empty_configuration
         [(no_files, request_with_body (lit "POST") (lit "/orders") (blit "hi"));
          (no_files, bare_request (lit "GET") (lit "/a"))]
         [])
  = [JDict [(lit "method", JStr (lit "/orders"));
            (lit "path", JStr (lit "POST"));
            (lit "body", JStr (lit "hi"))];
     JDict [(lit "method", JStr (lit "/a"));
            (lit "path", JStr (lit "GET"));
            (lit "body", JNone)]].
Proof.
  apply (serve_appends_in_arrival_order int_of_digits empty_configuration
           [(no_files, request_with_body (lit "POST") (lit "/orders") (blit "hi"));
            (no_files, bare_request (lit "GET") (lit "/a"))]
           [Some (lit "hi"); None] []).
  constructor; [|constructor; [|constructor]].
  - split; [right; right; left; reflexivity|]. split; [reflexivity|].
    split; [buffered_here|]. exists (Some (blit "hi")). split; [reflexivity|].
    exists (lit "hi"). split; reflexivity.
  - split; [right; left; reflexivity|]. split; [reflexivity|].
    split; [buffered_here|]. exists None. split; reflexivity.
Defined.

(** ** The [Content-Length] header *)

(** X8: a request that announces a length of zero is recorded with the empty
    string as its body, not with [None]: any non-empty header value makes
    the handler read, and the bytes read, none, decode to the empty text. *)
Theorem zero_length_body_is_recorded_empty (int : str -> option Z)
    (configuration : Configuration.t) (self : Request.t) (header method : str)
    (REGISTRY : CallsRegistry.t) :
  startswith (Request.path self) (lit "/mocker") = false ->
  Request.content_length self = Some header ->
  header <> [] ->
  int header = Some 0%Z ->
  fst (SimpleHandler.retrieve_response int configuration self
         (Request.path self) method REGISTRY)
  = REGISTRY ++ [JDict [(lit "method", JStr (Request.path self));
                        (lit "path", JStr method);
                        (lit "body", JStr [])]].
Proof.
  intros Hpath Hheader Hne Hint.
  rewrite (retrieve_response_mock int configuration self _ method REGISTRY (Some []));
    [reflexivity | exact Hpath |].
  split.
  - intros header' n Hheader' Hn. rewrite Hheader in Hheader'.
    injection Hheader' as <-. rewrite Hint in Hn. injection Hn as <-.
    apply len_bytes_nonnegative.
  - exists (Some []). split.
    + unfold SimpleHandler.read_content. rewrite Hheader.
      destruct header as [|c header]; [contradiction|].
      cbn [truthy_str orb]. rewrite Hint. reflexivity.
    + exists []. split; reflexivity.
Qed.

Lemma zero_length_body_is_recorded_empty_witness :
  fst (SimpleHandler.retrieve_response int_of_digits empty_configuration
         (request_announcing (lit "GET") (lit "/a") (lit "0") [])
         (lit "/a") (lit "GET") [])
  = [JDict [(lit "method", JStr (lit "/a"));
            (lit "path", JStr (lit "GET"));
            (lit "body", JStr [])]].
Proof.
  apply (zero_length_body_is_recorded_empty int_of_digits empty_configuration
           (request_announcing (lit "GET") (lit "/a") (lit "0") [])
           (lit "0") (lit "GET") []).
  - reflexivity.
  - reflexivity.
  - discriminate.
  - reflexivity.
Defined.

(** X9: a handled request off the introspection path whose [Content-Length]
    is not empty and not an integer for [int] is neither recorded nor
    answered: the [ValueError] leaves the handler before anything is sent. *)
Theorem malformed_length_is_not_answered (int : str -> option Z)
    (configuration : Configuration.t) (fs : FileSystem) (self : Request.t)
    (header : str) (REGISTRY : CallsRegistry.t) :
  In (Request.command self) handled ->
  startswith (Request.path self) (lit "/mocker") = false ->
  Request.content_length self = Some header ->
  header <> [] ->
  int header = None ->
  SimpleHandler.handle_one_request int configuration fs self REGISTRY
  = (REGISTRY, {| events := []; raised := Some ValueError |}).
Proof.
  intros Hcommand Hpath Hheader Hne Hint.
  rewrite handle_one_request_handled by exact Hcommand.
  unfold SimpleHandler.respond, SimpleHandler.retrieve_response.
  rewrite Hpath. unfold SimpleHandler.read_content. rewrite Hheader.
  destruct header as [|c header]; [contradiction|].
  cbn [truthy_str orb]. rewrite Hint. reflexivity.
Qed.

Lemma malformed_length_is_not_answered_witness :
  SimpleHandler.handle_one_request int_of_digits empty_configuration no_files
    (request_announcing (lit "POST") (lit "/a") (lit "ten") (blit "0123456789")) []
  = ([], {| events := []; raised := Some ValueError |}).
Proof.
  apply (malformed_length_is_not_answered int_of_digits empty_configuration
           no_files
           (request_announcing (lit "POST") (lit "/a") (lit "ten") (blit "0123456789"))
           (lit "ten") []).
  - right. right. left. reflexivity.
  - reflexivity.
  - reflexivity.
  - discriminate.
  - reflexivity.
Defined.

(** ** Building the tables and looking them up *)

(** The dispatcher's answer depends on the configuration only through the
    entry stored under the request path in the table of the method. *)
Lemma lookup_response_ext (configuration configuration' : Configuration.t)
    (path method : str) :
  table configuration method !! Some path = table configuration' method !! Some path ->
  SimpleHandler.lookup_response configuration path method
  = SimpleHandler.lookup_response configuration' path method.
Proof.
  unfold SimpleHandler.lookup_response, SimpleHandler.response_map, table.
  repeat case_decide; try reflexivity; intros ->; reflexivity.
Qed.

Lemma lookup_response_table (configuration : Configuration.t) (path method : str) :
  In method handled ->
  SimpleHandler.lookup_response configuration path method
  = match table configuration method !! Some path with
    | Some response => response
    | None => not_found method path
    end.
Proof.
  unfold handled. cbn [In].
  intros [<- | [<- | [<- | [<- | [<- | []]]]]]; reflexivity.
Qed.

(** Registering a declaration stores its response under its path in the
    table of its method, and changes no other entry of any table. *)
Lemma add_response_table (upper : str -> str) (self self' : Configuration.t)
    (response : Configuration.declaration) (m : str) :
  Configuration.add_response upper self response = Ok self' ->
  Configuration.d_method response = Some m ->
  In (upper m) handled /\
  table self' (upper m) !! Configuration.d_path response = Some (declared response) /\
  forall method key,
    method <> upper m \/ key <> Configuration.d_path response ->
    table self' method !! key = table self method !! key.
Proof.
  intros Hadd Hm. unfold Configuration.add_response in Hadd.
  rewrite Hm in Hadd. unfold handled. cbn [In].
  repeat case_decide; try discriminate; injection Hadd as <-;
    match goal with H : upper m = _ |- _ => rewrite H in * end;
    (split; [auto 10|]);
    (split; [unfold table, declared; cbn; rewrite Hm; apply lookup_insert_eq|]);
    intros method key [Hmethod | Hkey];
    unfold table; cbn; repeat case_decide; subst;
    try reflexivity; try contradiction; try discriminate;
    try (apply lookup_insert_ne; congruence).
Qed.

Lemma add_response_supported (upper : str -> str) (self : Configuration.t)
    (response : Configuration.declaration) :
  (exists self', Configuration.add_response upper self response = Ok self')
  <-> supported upper response.
Proof.
  unfold supported. split.
  - intros [self' Hadd].
    destruct (Configuration.d_method response) as [m|] eqn:Hm.
    + exists m. split; [reflexivity|].
      apply (add_response_table upper self self' response m Hadd Hm).
    + unfold Configuration.add_response in Hadd. rewrite Hm in Hadd. discriminate.
  - intros (m & Hm & Hin). unfold Configuration.add_response. rewrite Hm.
    unfold handled in Hin. cbn [In] in Hin.
    repeat case_decide; eauto. intuition congruence.
Qed.

Lemma build_response_map_app (upper : str -> str) (self : Configuration.t)
    (before after : list Configuration.declaration) :
  Configuration._build_response_map upper self (before ++ after)
  = bind (Configuration._build_response_map upper self before)
         (fun self' => Configuration._build_response_map upper self' after).
Proof.
  revert self. induction before as [|response before IH]; intros self.
  - reflexivity.
  - cbn [app Configuration._build_response_map].
    destruct (Configuration.add_response upper self response) as [self1|e];
      cbn [bind]; [apply IH | reflexivity].
Qed.

(** Declarations that do not name the method and key looked up leave the
    entry as it was. *)
Lemma build_response_map_other (upper : str -> str) (method : str)
    (key : option str) (responses : list Configuration.declaration) :
  forall self self',
    Configuration._build_response_map upper self responses = Ok self' ->
    Forall (fun response =>
              forall m, Configuration.d_method response = Some m ->
                        method <> upper m \/ key <> Configuration.d_path response)
           responses ->
    table self' method !! key = table self method !! key.
Proof.
  induction responses as [|response responses IH]; intros self self' Hbuild Hall.
  - injection Hbuild as <-. reflexivity.
  - cbn [Configuration._build_response_map] in Hbuild.
    destruct (Configuration.add_response upper self response) as [self1|e] eqn:Hadd;
      [|discriminate].
    cbn [bind] in Hbuild. apply Forall_cons in Hall as [Hhere Hlater].
    rewrite (IH self1 self' Hbuild Hlater).
    destruct (Configuration.d_method response) as [m|] eqn:Hm.
    + apply (add_response_table upper self self1 response m Hadd Hm).
      apply Hhere. reflexivity.
    + unfold Configuration.add_response in Hadd. rewrite Hm in Hadd. discriminate.
Qed.

Lemma init_ok_iff_supported (upper : str -> str)
    (hostname : str) (port : Z) (responses : list Configuration.declaration) :
  (exists configuration,
     Configuration.init upper hostname port responses = Ok configuration)
  <-> Forall (supported upper) responses.
Proof.
  unfold Configuration.init.
  generalize ({| Configuration.hostname := hostname; Configuration.port := port;
                 Configuration.head_response_map := ∅;
                 Configuration.get_response_map := ∅;
                 Configuration.post_response_map := ∅;
                 Configuration.put_response_map := ∅;
                 Configuration.delete_response_map := ∅ |}).
  induction responses as [|response responses IH]; intros self.
  - split; [constructor | intros _; exists self; reflexivity].
  - cbn [Configuration._build_response_map]. split.
    + intros [configuration Hbuild].
      destruct (Configuration.add_response upper self response) as [self1|e] eqn:Hadd;
        [|discriminate].
      constructor.
      * apply (add_response_supported upper self response). eauto.
      * apply (IH self1). eauto.
    + intros Hall. apply Forall_cons in Hall as [Hhere Hlater].
      apply (add_response_supported upper self response) in Hhere as [self1 ->].
      cbn [bind]. apply (IH self1). exact Hlater.
Qed.

(** X10: the constructor builds the tables exactly when every declaration
    names a method whose upper case is one of [HEAD], [GET], [POST], [PUT]
    and [DELETE]; a single declaration without a method or with another
    method makes the whole construction raise. *)
Theorem configuration_is_built_iff_supported (upper : str -> str)
    (hostname : str) (port : Z) (responses : list Configuration.declaration) :
  (exists configuration,
     Configuration.init upper hostname port responses = Ok configuration)
  <-> Forall (supported upper) responses.
Proof. apply init_ok_iff_supported. Qed.

Lemma configuration_is_built_iff_supported_witness :
  exists configuration,
    Configuration.init ascii_upper (lit "localhost") 8000%Z
      [hello_declaration; pathless_declaration] = Ok configuration.
Proof.
  apply (configuration_is_built_iff_supported ascii_upper (lit "localhost") 8000%Z
           [hello_declaration; pathless_declaration]).
  constructor; [|constructor; [|constructor]].
  - exists (lit "get"). split; [reflexivity|]. right. left. reflexivity.
  - exists (lit "GET"). split; [reflexivity|]. right. left. reflexivity.
Defined.

Lemma lookup_response_declared (upper : str -> str) (hostname : str) (port : Z)
    (before after : list Configuration.declaration)
    (response : Configuration.declaration) (configuration : Configuration.t)
    (m path : str) :
  Configuration.init upper hostname port (before ++ response :: after)
  = Ok configuration ->
  Configuration.d_method response = Some m ->
  Configuration.d_path response = Some path ->
  Forall (fun later =>
            forall m', Configuration.d_method later = Some m' ->
                       upper m <> upper m' \/ Some path <> Configuration.d_path later)
         after ->
  SimpleHandler.lookup_response configuration path (upper m)
  = Response.init (Some m) (Some path)
      (Configuration.d_responseCode response) (Configuration.d_headers response)
      (Configuration.d_body response) (Configuration.d_delay response).
Proof.
  intros Hinit Hm Hpath Hafter. unfold Configuration.init in Hinit.
  rewrite build_response_map_app in Hinit.
  destruct (Configuration._build_response_map upper _ before) as [self1|e];
    [|discriminate].
  cbn [bind Configuration._build_response_map] in Hinit.
  destruct (Configuration.add_response upper self1 response) as [self2|e] eqn:Hadd;
    [|discriminate].
  cbn [bind] in Hinit.
  destruct (add_response_table upper self1 self2 response m Hadd Hm)
    as (Hhandled & Hstored & _).
  rewrite (lookup_response_table configuration path (upper m) Hhandled).
  rewrite (build_response_map_other upper (upper m) (Some path) after self2
             configuration Hinit Hafter).
  rewrite <- Hpath, Hstored. unfold declared. rewrite Hm, Hpath. reflexivity.
Qed.

(** X11: a declaration is what the dispatcher answers for its method, in
    upper case, and its exact path, unless a later declaration names the
    same method and path: the last declaration of a method and path wins. *)
Theorem last_declaration_wins (upper : str -> str) (hostname : str) (port : Z)
    (before after : list Configuration.declaration)
    (response : Configuration.declaration) (configuration : Configuration.t)
    (m path : str) :
  Configuration.init upper hostname port (before ++ response :: after)
  = Ok configuration ->
  Configuration.d_method response = Some m ->
  Configuration.d_path response = Some path ->
  Forall (fun later =>
            forall m', Configuration.d_method later = Some m' ->
                       upper m <> upper m' \/ Some path <> Configuration.d_path later)
         after ->
  SimpleHandler.lookup_response configuration path (upper m)
  = Response.init (Some m) (Some path)
      (Configuration.d_responseCode response) (Configuration.d_headers response)
      (Configuration.d_body response) (Configuration.d_delay response).
Proof. apply lookup_response_declared. Qed.

Lemma last_declaration_wins_witness :
  match Configuration.init ascii_upper (lit "localhost") 8000%Z
          [hello_declaration; hello_redeclared; mockery_declaration] with
  | Ok configuration =>
      SimpleHandler.lookup_response configuration (lit "/hello") (lit "GET")
      = Response.init (Some (lit "GET")) (Some (lit "/hello")) (Some 202%Z) None
          (Some (lit "again")) None
  | Raise _ => False
  end.
Proof.
  destruct (Configuration.init ascii_upper (lit "localhost") 8000%Z
              [hello_declaration; hello_redeclared; mockery_declaration])
    as [configuration|e] eqn:Hinit; [|discriminate].
  apply (last_declaration_wins ascii_upper (lit "localhost") 8000%Z
           [hello_declaration] [mockery_declaration] hello_redeclared
           configuration (lit "GET") (lit "/hello") Hinit eq_refl eq_refl).
  constructor; [|constructor].
  intros m' Hm'. right. discriminate.
Defined.

(** X12: registering a declaration changes the dispatcher's answer for no
    other method and no other path: the five tables are filled
    independently, and within a table only the declared key is written. *)
Theorem add_response_leaves_others (upper : str -> str)
    (self self' : Configuration.t) (response : Configuration.declaration)
    (m path method : str) :
  Configuration.add_response upper self response = Ok self' ->
  Configuration.d_method response = Some m ->
  method <> upper m \/ Configuration.d_path response <> Some path ->
  SimpleHandler.lookup_response self' path method
  = SimpleHandler.lookup_response self path method.
Proof.
  intros Hadd Hm Hother. apply lookup_response_ext.
  apply (add_response_table upper self self' response m Hadd Hm).
  destruct Hother as [Hmethod | Hpath]; [left; exact Hmethod | right; congruence].
Qed.

Lemma add_response_leaves_others_witness :
  match Configuration.add_response ascii_upper empty_configuration hello_declaration with
  | Ok self' =>
      SimpleHandler.lookup_response self' (lit "/hello") (lit "POST")
      = SimpleHandler.lookup_response empty_configuration (lit "/hello") (lit "POST")
  | Raise _ => False
  end.
Proof.
  destruct (Configuration.add_response ascii_upper empty_configuration hello_declaration)
    as [self'|e] eqn:Hadd; [|discriminate].
  apply (add_response_leaves_others ascii_upper empty_configuration self'
           hello_declaration (lit "get") (lit "/hello") (lit "POST") Hadd eq_refl).
  left. discriminate.
Defined.



(** ** What [send] puts on the connection *)

Lemma len_nonnegative_sizes (fs : FileSystem) (b : MockedResponseBody.t) :
  sizes_nonnegative fs -> (0 <= MockedResponseBody.__len__ fs b)%Z.
Proof.
  intros Hsizes. unfold MockedResponseBody.__len__.
  destruct (MockedResponseBody.is_file b); [|apply len_nonnegative].
  destruct (st_size fs (MockedResponseBody.filename b)) as [size|] eqn:Hsize.
  - apply (Hsizes _ _ Hsize).
  - apply len_nonnegative.
Qed.

Lemma time_sleep_calm (secs : number) :
  SimpleHandler.sleep_error secs = None ->
  SimpleHandler.time_sleep secs = emit (Sleep secs).
Proof. intros Hcalm. unfold SimpleHandler.time_sleep. rewrite Hcalm. reflexivity. Qed.

Lemma send_mocked_inline (fs : FileSystem) (path : str) (r : MockedResponse) :
  SimpleHandler.sleep_error (Response.delay r) = None ->
  Forall sendable (Response.headers r) ->
  MockedResponseBody.is_file (Response.body r) = false ->
  Forall (fun c => c < 0x80) (MockedResponseBody.content (Response.body r)) ->
  SimpleHandler.send fs path r
  = {| events :=
         [Sleep (Response.delay r); SendResponse (Response.response_code r)]
         ++ header_events (Response.headers r)
         ++ [SendHeader (lit "Content-length")
               (str_of_int
                  (len_bytes (ascii_bytes (MockedResponseBody.content (Response.body r)))));
             EndHeaders;
             Write (ascii_bytes (MockedResponseBody.content (Response.body r)))];
       raised := None |}.
Proof.
  intros Hcalm Hheaders Hinline Hascii. unfold SimpleHandler.send.
  rewrite (time_sleep_calm _ Hcalm), (send_headers_complete _ Hheaders).
  cbn [body_len body_load MockedResponseBody_wrapper].
  rewrite (inline_len fs _ Hinline). unfold MockedResponseBody.load.
  rewrite Hinline, (encode_ascii_bytes _ Hascii), <- len_ascii_bytes.
  rewrite (send_content_length _ (len_bytes_nonnegative _)).
  reflexivity.
Qed.

Lemma send_mocked_file (fs : FileSystem) (path : str) (r : MockedResponse) :
  SimpleHandler.sleep_error (Response.delay r) = None ->
  Forall sendable (Response.headers r) ->
  sizes_nonnegative fs ->
  MockedResponseBody.is_file (Response.body r) = true ->
  SimpleHandler.send fs path r
  = {| events :=
         [Sleep (Response.delay r); SendResponse (Response.response_code r)]
         ++ header_events (Response.headers r)
         ++ [SendHeader (lit "Content-length")
               (str_of_int (MockedResponseBody.__len__ fs (Response.body r)));
             EndHeaders];
       raised := Some TypeError |}.
Proof.
  intros Hcalm Hheaders Hsizes Hfile. unfold SimpleHandler.send.
  rewrite (time_sleep_calm _ Hcalm), (send_headers_complete _ Hheaders).
  cbn [body_len body_load MockedResponseBody_wrapper].
  rewrite (send_content_length _ (len_nonnegative_sizes fs _ Hsizes)).
  destruct (load_file_backed fs (Response.body r) Hfile) as [[text ->] | ->];
    reflexivity.
Qed.

(** X14: for a response whose delay [time.sleep] accepts, whose headers each
    hold an item of latin-1 text and whose body is inline ASCII text, [send]
    sleeps for the delay, sends the status, then the first item of every
    header in the declared order, then a [Content-length] equal to the
    number of bytes it writes, ends the headers and writes the body; nothing
    is raised. *)
Theorem send_inline_ascii_response (fs : FileSystem) (path : str)
    (r : MockedResponse) :
  SimpleHandler.sleep_error (Response.delay r) = None ->
  Forall sendable (Response.headers r) ->
  MockedResponseBody.is_file (Response.body r) = false ->
  Forall (fun c => c < 0x80) (MockedResponseBody.content (Response.body r)) ->
  SimpleHandler.send fs path r
  = {| events :=
         [Sleep (Response.delay r); SendResponse (Response.response_code r)]
         ++ header_events (Response.headers r)
         ++ [SendHeader (lit "Content-length")
               (str_of_int
                  (len_bytes (ascii_bytes (MockedResponseBody.content (Response.body r)))));
             EndHeaders;
             Write (ascii_bytes (MockedResponseBody.content (Response.body r)))];
       raised := None |}.
Proof. apply send_mocked_inline. Qed.

Lemma send_inline_ascii_response_witness :
  SimpleHandler.send no_files (lit "/hello") (declared hello_declaration)
  = {| events := [Sleep (PyInt 0); SendResponse 201;
                  SendHeader (lit "X-Kind") (lit "greeting");
                  SendHeader (lit "Content-length") (lit "2");
                  EndHeaders; Write (blit "hi")];
       raised := None |}.
Proof.
  rewrite (send_inline_ascii_response no_files (lit "/hello")
             (declared hello_declaration)).
  - reflexivity.
  - reflexivity.
  - constructor; [split; reflexivity | constructor].
  - reflexivity.
  - repeat constructor.
Defined.

(** X15: for a response with a file-backed body, a delay [time.sleep]
    accepts and headers that each hold an item of latin-1 text, whatever
    files the file system holds, [send] sends the status, the headers and a
    [Content-length], ends the headers and then fails with a [TypeError] in
    [wfile.write]: no body byte is ever written, since [load] hands back
    text or [None] and never bytes. *)
Theorem send_file_backed_writes_no_body (fs : FileSystem) (path : str)
    (r : MockedResponse) :
  SimpleHandler.sleep_error (Response.delay r) = None ->
  Forall sendable (Response.headers r) ->
  sizes_nonnegative fs ->
  MockedResponseBody.is_file (Response.body r) = true ->
  SimpleHandler.send fs path r
  = {| events :=
         [Sleep (Response.delay r); SendResponse (Response.response_code r)]
         ++ header_events (Response.headers r)
         ++ [SendHeader (lit "Content-length")
               (str_of_int (MockedResponseBody.__len__ fs (Response.body r)));
             EndHeaders];
       raised := Some TypeError |}.
Proof. apply send_mocked_file. Qed.

Lemma send_file_backed_writes_no_body_witness :
  SimpleHandler.send greeting_files (lit "/")
    (Response.init (B := MockedResponseBody.t)
       None None (Some 201%Z) (Some [[(lit "X-Kind", lit "greeting")]])
       (Some (lit "@file://greeting.txt")) None)
  = {| events := [Sleep (PyInt 0); SendResponse 201;
                  SendHeader (lit "X-Kind") (lit "greeting");
                  SendHeader (lit "Content-length") (lit "5");
                  EndHeaders];
       raised := Some TypeError |}.
Proof.
  rewrite (send_file_backed_writes_no_body greeting_files (lit "/")).
  - reflexivity.
  - reflexivity.
  - constructor; [split; reflexivity | constructor].
  - intros name size. cbn. case_decide; [|discriminate].
    intros [= <-]. unfold maxsize. lia.
  - reflexivity.
Defined.

(** X16: for a response whose delay [time.sleep] accepts, a header that is
    an empty mapping stops [send] with an [IndexError] once the status and
    the headers before it, each holding an item of latin-1 text, are sent:
    no [Content-length], no end of headers and no body follow, whatever the
    body is. *)
Theorem send_stops_at_empty_header {B} `{BodyWrapper B} (fs : FileSystem)
    (path : str) (r : Response.t B) (before after : list header) :
  SimpleHandler.sleep_error (Response.delay r) = None ->
  Response.headers r = before ++ [] :: after ->
  Forall sendable before ->
  SimpleHandler.send fs path r
  = {| events :=
         [Sleep (Response.delay r); SendResponse (Response.response_code r)]
         ++ header_events before;
       raised := Some IndexError |}.
Proof.
  intros Hcalm Hheaders Hbefore. unfold SimpleHandler.send.
  rewrite (time_sleep_calm _ Hcalm), Hheaders.
  assert (Hsent : SimpleHandler.send_headers (before ++ [] :: after)
                  = {| events := header_events before; raised := Some IndexError |}).
  { clear Hheaders. induction Hbefore as [|h before Hh _ IH].
    - reflexivity.
    - destruct h as [|[keyword v] h]; [contradiction|].
      destruct Hh as [Hkeyword Hvalue].
      cbn [app SimpleHandler.send_headers header_events].
      unfold SimpleHandler.send_header. rewrite Hkeyword, Hvalue, IH.
      reflexivity. }
  rewrite Hsent. reflexivity.
Qed.

Lemma send_stops_at_empty_header_witness :
  SimpleHandler.send no_files (lit "/")
    (Response.init (B := MockedResponseBody.t)
       None None None (Some [[(lit "X-Kind", lit "greeting")]; []])
       (Some (lit "hi")) None)
  = {| events := [Sleep (PyInt 0); SendResponse 200;
                  SendHeader (lit "X-Kind") (lit "greeting")];
       raised := Some IndexError |}.
Proof.
  rewrite (send_stops_at_empty_header no_files (lit "/") _
             [[(lit "X-Kind", lit "greeting")]] []).
  - reflexivity.
  - reflexivity.
  - reflexivity.
  - constructor; [split; reflexivity | constructor].
Defined.

(** ** An unmatched path that holds the file marker *)

(** X17: a handled request whose body is absent or is read and decoded
    without error, whose path has no entry and holds [@file://] somewhere,
    is recorded and gets the status 404 and the headers but no body: the
    JSON text made for the answer repeats the path, so the body made of it
    counts as file-backed and [send] fails in [wfile.write]. *)
Theorem not_found_with_marker_has_no_body (int : str -> option Z)
    (configuration : Configuration.t) (fs : FileSystem) (self : Request.t)
    (REGISTRY : CallsRegistry.t) (body : option str) :
  In (Request.command self) handled ->
  startswith (Request.path self) (lit "/mocker") = false ->
  recordable int self body ->
  sizes_nonnegative fs ->
  table configuration (Request.command self) !! Some (Request.path self) = None ->
  contains (lit "@file://") (Request.path self) = true ->
  SimpleHandler.handle_one_request int configuration fs self REGISTRY
  = (REGISTRY ++ [CallsRegistry.entry (Request.path self) (Request.command self) body],
     {| events :=
          [Sleep (PyInt 0); SendResponse 404;
           SendHeader (lit "Content-Type") (lit "application/json");
           SendHeader (lit "Content-length")
             (str_of_int
                (MockedResponseBody.__len__ fs
                   (MockedResponseBody.init
                      (Some (dumps (SimpleHandler.not_found_message
                                      (Request.path self)))))));
           EndHeaders];
        raised := Some TypeError |}).
Proof.
  intros Hcommand Hpath Hbody Hsizes Hnone Hmarker.
  rewrite handle_one_request_handled by exact Hcommand.
  unfold SimpleHandler.respond.
  rewrite (retrieve_response_mock int configuration self _ _ REGISTRY body Hpath Hbody).
  rewrite (lookup_response_table configuration _ _ Hcommand), Hnone.
  cbn [SimpleHandler.send_any].
  rewrite send_mocked_file.
  - reflexivity.
  - reflexivity.
  - constructor; [split; reflexivity | constructor].
  - exact Hsizes.
  - unfold not_found. cbn [Response.body Response.init wrap MockedResponseBody_wrapper].
    rewrite not_found_body_is_file. exact Hmarker.
Qed.

Lemma not_found_with_marker_has_no_body_witness :
  snd (SimpleHandler.handle_one_request int_of_digits empty_configuration
         greeting_files (bare_request (lit "GET") (lit "/@file://greeting.txt")) [])
  = {| events :=
         [Sleep (PyInt 0); SendResponse 404;
          SendHeader (lit "Content-Type") (lit "application/json");
          SendHeader (lit "Content-length") (lit "4");
          EndHeaders];
       raised := Some TypeError |}.
Proof.
  rewrite (not_found_with_marker_has_no_body int_of_digits empty_configuration
             greeting_files (bare_request (lit "GET") (lit "/@file://greeting.txt"))
             [] None).
  - reflexivity.
  - right. left. reflexivity.
  - reflexivity.
  - split; [buffered_here|]. exists None. split; reflexivity.
  - intros name size. cbn. case_decide; [|discriminate].
    intros [= <-]. unfold maxsize. lia.
  - reflexivity.
  - reflexivity.
Defined.

(** ** A declared response on the connection *)



(** ** UTF-8 there and back *)

Ltac euclid := zify; Z.to_euclidean_division_equations; lia.

Lemma to_N_byte_of_N (n : N) : n < 256 -> Byte.to_N (byte_of_N n) = n.
Proof.
  intros Hn. unfold byte_of_N. destruct (Byte.of_N n) as [b|] eqn:Hb.
  - apply Byte.to_of_N. exact Hb.
  - apply Byte.of_N_None_iff in Hb. lia.
Qed.

(** Bits that do not overlap add up. *)
Lemma lor_disjoint (h a k : N) :
  a < 2 ^ k -> N.lor (N.shiftl h k) a = h * 2 ^ k + a.
Proof.
  intros Ha.
  assert (Hland : N.land (N.shiftl h k) a = 0).
  { apply N.bits_inj. intros n. rewrite N.land_spec, N.bits_0.
    destruct (N.lt_ge_cases n k) as [Hlow | Hhigh].
    - rewrite N.shiftl_spec_low by exact Hlow. reflexivity.
    - rewrite <- (N.mod_small a (2 ^ k)) by exact Ha.
      rewrite N.mod_pow2_bits_high by exact Hhigh. apply andb_false_r. }
  rewrite <- N.lxor_lor, <- N.add_nocarry_lxor, N.shiftl_mul_pow2 by exact Hland.
  reflexivity.
Qed.

Lemma lor_const (h k a : N) : a < 2 ^ k -> N.lor (h * 2 ^ k) a = h * 2 ^ k + a.
Proof.
  intros Ha. rewrite <- (lor_disjoint h a k Ha), N.shiftl_mul_pow2. reflexivity.
Qed.

Lemma lor_80 (a : N) : a < 64 -> N.lor 0x80 a = 128 + a.
Proof. apply (lor_const 2 6 a). Qed.

Lemma lor_C0 (a : N) : a < 64 -> N.lor 0xC0 a = 192 + a.
Proof. apply (lor_const 3 6 a). Qed.

Lemma lor_E0 (a : N) : a < 32 -> N.lor 0xE0 a = 224 + a.
Proof. apply (lor_const 7 5 a). Qed.

Lemma lor_F0 (a : N) : a < 16 -> N.lor 0xF0 a = 240 + a.
Proof. apply (lor_const 15 4 a). Qed.

Lemma lor_shiftl_6 (h a : N) : a < 64 -> N.lor (N.shiftl h 6) a = h * 64 + a.
Proof. apply (lor_disjoint h a 6). Qed.

Lemma lor_shiftl_12 (h a : N) : a < 4096 -> N.lor (N.shiftl h 12) a = h * 4096 + a.
Proof. apply (lor_disjoint h a 12). Qed.

Lemma lor_shiftl_18 (h a : N) :
  a < 262144 -> N.lor (N.shiftl h 18) a = h * 262144 + a.
Proof. apply (lor_disjoint h a 18). Qed.

Lemma land_3F (n : N) : N.land n 0x3F = n mod 64.
Proof. apply (N.land_ones n 6). Qed.

Lemma land_1F (n : N) : N.land n 0x1F = n mod 32.
Proof. apply (N.land_ones n 5). Qed.

Lemma land_0F (n : N) : N.land n 0x0F = n mod 16.
Proof. apply (N.land_ones n 4). Qed.

Lemma land_07 (n : N) : N.land n 0x07 = n mod 8.
Proof. apply (N.land_ones n 3). Qed.

Lemma shiftr_6 (n : N) : N.shiftr n 6 = n / 64.
Proof. apply (N.shiftr_div_pow2 n 6). Qed.

Lemma shiftr_12 (n : N) : N.shiftr n 12 = n / 4096.
Proof. apply (N.shiftr_div_pow2 n 12). Qed.

Lemma shiftr_18 (n : N) : N.shiftr n 18 = n / 262144.
Proof. apply (N.shiftr_div_pow2 n 18). Qed.

(** The byte [encode] makes of six bits is a continuation byte that carries
    them. *)
Lemma continuation_byte (x : N) :
  is_continuation (byte_of_N (N.lor 0x80 (N.land x 0x3F))) = true /\
  payload (byte_of_N (N.lor 0x80 (N.land x 0x3F))) = x mod 64.
Proof.
  unfold is_continuation, payload.
  rewrite land_3F, lor_80 by euclid. rewrite to_N_byte_of_N by euclid.
  rewrite land_3F. split.
  - apply andb_true_iff. split; apply N.leb_le; euclid.
  - euclid.
Qed.

(** One step of [decode]. *)
Lemma decode_cons (b0 : byte) (r0 : bytes) :
  decode (b0 :: r0)
  = ltac:(let t := eval cbn [decode] in (decode (b0 :: r0)) in exact t).
Proof. reflexivity. Qed.

Ltac settle b :=
  first [ replace b with true
            by (symmetry; first [apply N.leb_le | apply N.ltb_lt]; euclid)
        | replace b with false
            by (symmetry; first [apply N.leb_gt | apply N.ltb_ge]; euclid) ].

(** [decode] reads back the character [encode] wrote, and goes on behind
    it. *)
Lemma decode_encode_char (c : N) (bs rest : bytes) :
  utf8_encode_char c = Some bs -> decode (bs ++ rest) = push c (decode rest).
Proof.
  unfold utf8_encode_char.
  destruct (N.ltb_spec c 0x80) as [H1|H1].
  { intros [= <-]. cbn [app]. rewrite decode_cons, to_N_byte_of_N by lia.
    apply N.ltb_lt in H1. rewrite H1. reflexivity. }
  destruct (N.ltb_spec c 0x800) as [H2|H2].
  { intros [= <-]. cbn [app]. rewrite decode_cons.
    destruct (continuation_byte c) as [Hcont Hpay]. rewrite Hcont, Hpay.
    rewrite shiftr_6, lor_C0 by euclid. rewrite to_N_byte_of_N by euclid.
    rewrite land_1F, lor_shiftl_6 by euclid.
    settle (192 + c / 64 <? 128).
    settle (192 <=? 192 + c / 64).
    settle (192 + c / 64 <=? 223).
    cbn [andb].
    replace ((192 + c / 64) mod 32 * 64 + c mod 64) with c by euclid.
    settle (128 <=? c).
    reflexivity. }
  destruct (N.ltb_spec c 0x10000) as [H3|H3].
  { destruct (N.leb_spec 0xD800 c) as [H4|H4];
      [destruct (N.leb_spec c 0xDFFF) as [H5|H5]|]; cbn [andb];
      try discriminate; intros [= <-]; cbn [app]; rewrite decode_cons;
      destruct (continuation_byte c) as [Hcont2 Hpay2];
      destruct (continuation_byte (N.shiftr c 6)) as [Hcont1 Hpay1];
      rewrite Hcont1, Hpay1, Hcont2, Hpay2;
      rewrite shiftr_12, shiftr_6, lor_E0 by euclid;
      rewrite to_N_byte_of_N by euclid;
      rewrite ?land_1F, ?land_0F; rewrite !lor_shiftl_6 by euclid;
      rewrite !lor_shiftl_12 by euclid;
      settle (224 + c / 4096 <? 128);
      settle (192 <=? 224 + c / 4096);
      settle (224 + c / 4096 <=? 223);
      settle (224 <=? 224 + c / 4096);
      settle (224 + c / 4096 <=? 239);
      cbn [andb];
      replace ((224 + c / 4096) mod 16 * 4096 + ((c / 64) mod 64 * 64 + c mod 64))
        with c by euclid;
      settle (2048 <=? c); settle (55296 <=? c); try settle (c <=? 57343);
      reflexivity. }
  destruct (N.ltb_spec c 0x110000) as [H4|H4]; [|discriminate].
  intros [= <-]. cbn [app]. rewrite decode_cons.
  destruct (continuation_byte c) as [Hcont3 Hpay3].
  destruct (continuation_byte (N.shiftr c 6)) as [Hcont2 Hpay2].
  destruct (continuation_byte (N.shiftr c 12)) as [Hcont1 Hpay1].
  rewrite Hcont1, Hpay1, Hcont2, Hpay2, Hcont3, Hpay3.
  rewrite shiftr_18, shiftr_12, shiftr_6, lor_F0 by euclid.
  rewrite to_N_byte_of_N by euclid.
  rewrite ?land_1F, ?land_0F, ?land_07. rewrite !lor_shiftl_6 by euclid.
  rewrite !lor_shiftl_12 by euclid. rewrite !lor_shiftl_18 by euclid.
  settle (240 + c / 262144 <? 128).
  settle (192 <=? 240 + c / 262144).
  settle (240 + c / 262144 <=? 223).
  settle (224 <=? 240 + c / 262144).
  settle (240 + c / 262144 <=? 239).
  settle (240 <=? 240 + c / 262144).
  settle (240 + c / 262144 <=? 247).
  cbn [andb].
  replace ((240 + c / 262144) mod 8 * 262144
           + ((c / 4096) mod 64 * 4096 + ((c / 64) mod 64 * 64 + c mod 64)))
    with c by euclid.
  settle (65536 <=? c). settle (c <? 1114112).
  reflexivity.
Qed.

Lemma decode_encode (s : str) (bs : bytes) : encode s = Ok bs -> decode bs = Ok s.
Proof.
  revert bs. induction s as [|c s IH]; intros bs.
  - intros [= <-]. reflexivity.
  - cbn [encode]. destruct (utf8_encode_char c) as [cs|] eqn:Hc; [|discriminate].
    destruct (encode s) as [rest|e]; [|discriminate].
    intros [= <-]. rewrite (decode_encode_char c cs rest Hc), (IH rest eq_refl).
    reflexivity.
Qed.

(** X19: a request body that is the UTF-8 encoding of a text is recorded as
    that text, character for character, behind the entries already there. *)
Theorem add_records_the_text_sent (self : CallsRegistry.t) (method path text : str)
    (sent : bytes) :
  encode text = Ok sent ->
  CallsRegistry.add self method path (Some sent)
  = Ok (self ++ [JDict [(lit "method", JStr method);
                        (lit "path", JStr path);
                        (lit "body", JStr text)]]).
Proof.
  intros Hsent. unfold CallsRegistry.add.
  rewrite (decode_encode text sent Hsent). reflexivity.
Qed.

Lemma add_records_the_text_sent_witness :
  CallsRegistry.add [] (lit "POST") (lit "/orders") (Some [xe2; x82; xac; x35])
  = Ok [JDict [(lit "method", JStr (lit "POST"));
               (lit "path", JStr (lit "/orders"));
               (lit "body", JStr [0x20AC; 0x35])]].
Proof.
  apply (add_records_the_text_sent [] (lit "POST") (lit "/orders") [0x20AC; 0x35]
           [xe2; x82; xac; x35]).
  reflexivity.
Defined.

(** X20: an inline body loads as bytes that decode back to the configured
    text, whenever the text can be encoded at all, and the file system is
    not consulted for it. *)
Theorem inline_body_loads_its_text (fs : FileSystem) (raw : str) (sent : bytes) :
  contains (lit "@file://") raw = false ->
  encode raw = Ok sent ->
  MockedResponseBody.load fs (MockedResponseBody.init (Some raw))
  = Ok (LoadedBytes sent) /\
  decode sent = Ok raw.
Proof.
  intros Hinline Hsent. split; [|apply (decode_encode raw sent Hsent)].
  unfold MockedResponseBody.load.
  rewrite init_is_file, Hinline, init_content, Hsent. reflexivity.
Qed.

Lemma inline_body_loads_its_text_witness :
  MockedResponseBody.load no_files (MockedResponseBody.init (Some [0xE9; 0x21]))
  = Ok (LoadedBytes [xc3; xa9; x21]) /\
  decode [xc3; xa9; x21] = Ok [0xE9; 0x21].
Proof.
  apply (inline_body_loads_its_text no_files [0xE9; 0x21] [xc3; xa9; x21]);
    reflexivity.
Defined.

(** ** Calls the host refuses *)

Example sleep_refuses :
  SimpleHandler.sleep_error (PyInt (-1)) = Some ValueError /\
  SimpleHandler.sleep_error (PyInt 9223372036) = None /\
  SimpleHandler.sleep_error (PyInt 9223372037) = Some OverflowError /\
  SimpleHandler.sleep_error (PyFloat S754_nan) = Some ValueError /\
  SimpleHandler.sleep_error (PyFloat (S754_infinity false)) = Some OverflowError /\
  SimpleHandler.sleep_error (PyFloat (S754_finite true 1 (-1))) = Some ValueError /\
  SimpleHandler.sleep_error (PyFloat (S754_finite false 3602879701896397 (-54))) = None /\
  SimpleHandler.sleep_error (PyFloat (S754_finite false 1 1000)) = Some OverflowError.
Proof. repeat apply conj; reflexivity. Qed.

(** A delay [time.sleep] refuses ends [send] before anything is sent. *)
Lemma send_refused_delay {B} `{BodyWrapper B} (fs : FileSystem) (path : str)
    (r : Response.t B) (e : exn) :
  SimpleHandler.sleep_error (Response.delay r) = Some e ->
  SimpleHandler.send fs path r = {| events := []; raised := Some e |}.
Proof.
  intros Hrefused. unfold SimpleHandler.send, SimpleHandler.time_sleep.
  rewrite Hrefused. reflexivity.
Qed.

Example send_negative_delay :
  SimpleHandler.send no_files (lit "/")
    (Response.init (B := MockedResponseBody.t)
       None None None None (Some (lit "hi")) (Some (PyInt (-1))))
  = {| events := []; raised := Some ValueError |}.
Proof. reflexivity. Qed.

(** A header value with the euro sign cannot be encoded as latin-1. *)
Example send_header_beyond_latin1 :
  SimpleHandler.send no_files (lit "/")
    (Response.init (B := MockedResponseBody.t)
       None None None (Some [[(lit "X-Price", [0x20AC])]]) (Some (lit "hi")) None)
  = {| events := [Sleep (PyInt 0); SendResponse 200];
       raised := Some UnicodeEncodeError |}.
Proof. reflexivity. Qed.

Example read_refuses :
  Request.read (request_announcing (lit "POST") (lit "/a") (lit "-5") (blit "hi")) (-5)
  = Raise ValueError /\
  Request.read (request_announcing (lit "POST") (lit "/a") (lit "-1") (blit "hi")) (-1)
  = Ok (blit "hi") /\
  Request.read (request_announcing (lit "POST") (lit "/a") (lit "9") (blit "hi")) 9
  = Ok (blit "hi") /\
  Request.read (request_announcing (lit "POST") (lit "/a") (lit "1") (blit "hi")) 1
  = Ok (blit "h") /\
  Request.read (request_announcing (lit "POST") (lit "/a")
                  (lit "9223372036854775808") (blit "hi")) 9223372036854775808
  = Raise OverflowError.
Proof. repeat apply conj; reflexivity. Qed.

(** A length below [-1] is neither recorded nor answered, whatever [int]
    made of the header. *)
Lemma refused_length_is_not_answered (int : str -> option Z)
    (configuration : Configuration.t) (fs : FileSystem) (self : Request.t)
    (header : str) (n : Z) (REGISTRY : CallsRegistry.t) :
  In (Request.command self) handled ->
  startswith (Request.path self) (lit "/mocker") = false ->
  Request.content_length self = Some header ->
  header <> [] ->
  int header = Some n ->
  (n < -1)%Z ->
  SimpleHandler.handle_one_request int configuration fs self REGISTRY
  = (REGISTRY, {| events := []; raised := Some ValueError |}).
Proof.
  intros Hcommand Hpath Hheader Hne Hint Hn.
  rewrite handle_one_request_handled by exact Hcommand.
  unfold SimpleHandler.respond, SimpleHandler.retrieve_response.
  rewrite Hpath. unfold SimpleHandler.read_content. rewrite Hheader.
  destruct header as [|c header]; [contradiction|].
  cbn [truthy_str orb]. rewrite Hint. unfold Request.read.
  destruct (Z.ltb_spec n (-1)) as [_|Hge]; [reflexivity | lia].
Qed.
